(** * Bootstrap hypothesis test for timing-based blind SQL injection

    A shallow embedding of [bootstrap.cc]: the statistic ([average]), the
    resampler ([sample]), the percentile interval ([getInterval]), the
    hypothesis tester ([rejected]), the acquisition stub ([readSamples]),
    the input parser ([parseInput]) and the sequential driver ([main]).

    Conventions.
    - [fp_t] is C++ [double]: IEEE 754 binary64, modelled by Rocq's primitive
      [float] (same format, round to nearest even).
    - [size_t] and [unsigned int] values are integers in [Z]; the places where
      the program's arithmetic wraps are written out with [wrap64]/[wrap32].
    - [std::vector] and [std::deque] are lists, in index order.
    - A call either returns or fails: a failed [assert], an uncaught
      [std::out_of_range], or behaviour the language leaves undefined.
    - The global generator [g_rng] is threaded explicitly. *)

From Stdlib Require Import String Ascii.
From Stdlib Require Import ZArith List Bool Lia Floats.
From Stdlib Require Import Sorting.Sorted Sorting.Permutation.
Import ListNotations.

Set Warnings "-inexact-float".

Local Open Scope Z_scope.

(* ================================================================== *)
(** ** Failure and the state-passing notation *)

Inductive failure : Type :=
| AssertionFailure    (* [assert] evaluated to false: the process aborts *)
| OutOfRange          (* uncaught [std::out_of_range]: [std::terminate] *)
| Undefined.          (* undefined behaviour *)

Inductive outcome (A : Type) : Type :=
| Returns (a : A)
| Fails (f : failure).

Arguments Returns {A} a.
Arguments Fails {A} f.

Definition bind {A B : Type} (m : outcome A) (k : A -> outcome B) : outcome B :=
  match m with
  | Returns a => k a
  | Fails f => Fails f
  end.

Notation "x <- m ;; k" := (bind m (fun x => k))
  (at level 61, m at next level, right associativity).
Notation "' p <- m ;; k" := (bind m (fun x => match x with p => k end))
  (at level 61, p pattern, m at next level, right associativity).

Definition assert (b : bool) : outcome unit :=
  if b then Returns tt else Fails AssertionFailure.

(* ================================================================== *)
(** ** Machine integers and doubles *)

(** [typedef double fp_t;] *)
Abbreviation fp_t := float (only parsing).

Definition wrap64 (z : Z) : Z := z mod 2 ^ 64.
Definition wrap32 (z : Z) : Z := z mod 2 ^ 32.

(** [v.size()] as a [size_t]. *)
Definition size {A : Type} (v : list A) : Z := Z.of_nat (length v).

(** Conversion of a [size_t] to [double], correctly rounded.  Above 2^63 the
    value is halved with a sticky low bit, converted and doubled. *)
Definition size_to_fp (n : Z) : fp_t :=
  if n <? 2 ^ 63 then of_uint63 (Uint63.of_Z n)
  else
    let h := of_uint63 (Uint63.of_Z (Z.lor (Z.shiftr n 1) (Z.land n 1))) in
    (h + h)%float.

(** An integer of magnitude below 2^63 as a double. *)
Definition Z_to_fp (z : Z) : fp_t :=
  if z <? 0 then (- of_uint63 (Uint63.of_Z (- z)))%float
  else of_uint63 (Uint63.of_Z z).

(** [std::floor]: doubles with a non-negative exponent, zeros, infinities and
    NaN are their own floor. *)
Definition floor (d : fp_t) : fp_t :=
  match Prim2SF d with
  | S754_finite s m e =>
      if e <? 0 then Z_to_fp (Z.shiftl (cond_Zopp s (Zpos m)) e) else d
  | _ => d
  end.

(** [std::ceil]. *)
Definition ceil (d : fp_t) : fp_t := (- floor (- d))%float.

(** Implicit conversion of a [double] to [size_t]: truncation toward zero;
    undefined ([None]) when the truncated value is not a [size_t]. *)
Definition fp_to_size (d : fp_t) : option Z :=
  match Prim2SF d with
  | S754_zero _ => Some 0
  | S754_finite s m e =>
      let t := cond_Zopp s (Z.shiftl (Zpos m) e) in
      if (0 <=? t) && (t <? 2 ^ 64) then Some t else None
  | S754_infinity _ | S754_nan => None
  end.

(* ================================================================== *)
(** ** Constants *)

Definition BOOTSTRAP_SAMPLES : Z := 10000.
Definition SIGNIFICANCE_ALPHA : fp_t := 0.01%float.
Definition INITAL_SAMPLE_SIZE : Z := 4.
Definition MAX_SAMPLE_SIZE : Z := 60.

(* ================================================================== *)
(** ** The random source

    [std::uniform_int_distribution<size_t> dist(a, b); dist(g_rng)]: one draw
    advances the generator and yields an integer between [a] and [b]
    inclusive.  The generator and the distribution's algorithm are left
    abstract; only the range of the draw is part of the interface. *)

Class RandomSource : Type := {
  rng : Type;
  uniform : Z -> Z -> rng -> Z * rng;
  uniform_range : forall a b g, a <= b -> a <= fst (uniform a b g) <= b
}.

(* ================================================================== *)
(** ** Statistic function *)

Definition average (values : list fp_t) : fp_t :=
  let acc := fold_left (fun acc val => (acc + val)%float) values 0%float in
  (acc / size_to_fp (size values))%float.

(* ================================================================== *)
(** ** Resampler *)

(** [values[i]], unchecked. *)
Definition index {A : Type} (values : list A) (i : Z) : outcome A :=
  if (0 <=? i) && (i <? size values)
  then match nth_error values (Z.to_nat i) with
       | Some v => Returns v
       | None => Fails Undefined
       end
  else Fails Undefined.

(** [values.at(i)], checked. *)
Definition at_ {A : Type} (values : list A) (i : Z) : outcome A :=
  if (0 <=? i) && (i <? size values)
  then match nth_error values (Z.to_nat i) with
       | Some v => Returns v
       | None => Fails OutOfRange
       end
  else Fails OutOfRange.

Section Program.

Context {R : RandomSource}.

(** The body of the [for] loop of [sample], [k] iterations to go. *)
Fixpoint sample_loop (k : nat) (values : list fp_t) (hi : Z)
    (result : list fp_t) (g : rng) : outcome (list fp_t * rng) :=
  match k with
  | O => Returns (result, g)
  | S k' =>
      let (i, g') := uniform 0 hi g in
      v <- index values i ;;
      sample_loop k' values hi (result ++ [v]) g'
  end.

Definition sample (values : list fp_t) (sampleSize : Z) (g : rng)
    : outcome (list fp_t * rng) :=
  sample_loop (Z.to_nat sampleSize) values (wrap64 (size values - 1)) [] g.

(* ------------------------------------------------------------------ *)
(** ** Percentile interval estimator *)

(** [values.at(d)] with [d] a [double]: the index is first converted to
    [size_t]. *)
Definition at_fp (values : list fp_t) (d : fp_t) : outcome fp_t :=
  match fp_to_size d with
  | Some i => at_ values i
  | None => Fails Undefined
  end.

Definition getInterval (values : list fp_t) (alpha : fp_t)
    : outcome (fp_t * fp_t) :=
  let halfAlpha := (alpha / 2)%float in
  let lowerIndex := (size_to_fp (wrap64 (size values - 1)) * halfAlpha)%float in
  let upperIndex :=
    (size_to_fp (wrap64 (size values - 1)) * (1 - halfAlpha))%float in
  lower <- at_fp values (floor lowerIndex) ;;
  upper <- at_fp values (ceil upperIndex) ;;
  Returns (lower, upper).

(* ------------------------------------------------------------------ *)
(** ** Hypothesis tester *)

(** [std::sort] with [operator<]: ascending.  On a sequence without NaN any
    sorting algorithm yields the same result up to the order of elements that
    compare equal (0.0 and -0.0); insertion is the one written here. *)
Fixpoint insert (a : fp_t) (l : list fp_t) : list fp_t :=
  match l with
  | [] => [a]
  | b :: l' => if (b <? a)%float then b :: insert a l' else a :: l
  end.

Fixpoint sort (l : list fp_t) : list fp_t :=
  match l with
  | [] => []
  | a :: l' => insert a (sort l')
  end.

(** The [for] loop of [rejected], [k] iterations to go. *)
Fixpoint bootstrap_loop (k : nat) (x y : list fp_t) (bootStrapped : list fp_t)
    (g : rng) : outcome (list fp_t * rng) :=
  match k with
  | O => Returns (bootStrapped, g)
  | S k' =>
      '(xSample, g1) <- sample x (wrap32 (size x)) g ;;
      '(ySample, g2) <- sample y (wrap32 (size y)) g1 ;;
      bootstrap_loop k' x y
        (bootStrapped ++ [(average xSample - average ySample)%float]) g2
  end.

Definition rejected (x y : list fp_t) (g : rng) : outcome (bool * rng) :=
  '(bootStrapped, g') <- bootstrap_loop (Z.to_nat BOOTSTRAP_SAMPLES) x y [] g ;;
  let sorted := sort bootStrapped in
  bounds <- getInterval sorted SIGNIFICANCE_ALPHA ;;
  Returns ((0 <? fst bounds)%float || (snd bounds <? 0)%float, g').

End Program.

(* ================================================================== *)
(** ** Acquisition stub *)

(** [v.front()]. *)
Definition front {A : Type} (v : list A) : outcome A :=
  match v with
  | [] => Fails Undefined
  | a :: _ => Returns a
  end.

(** The [for] loop of [readSamples]: the result so far and what is left of
    the input. *)
Fixpoint readSamples_loop (k : nat) (input result : list fp_t)
    : outcome (list fp_t * list fp_t) :=
  match k with
  | O => Returns (result, input)
  | S k' =>
      v <- front input ;;
      readSamples_loop k' (tl input) (result ++ [v])
  end.

(** Returns the samples read and the input as the call leaves it. *)
Definition readSamples (input : list fp_t) (n : Z)
    : outcome (list fp_t * list fp_t) :=
  _ <- assert ((n <=? size input) && negb (n =? 0)) ;;
  readSamples_loop (Z.to_nat n) input [].

(* ================================================================== *)
(** ** Input parsing *)

(** Standard input, as the parser consumes it: the lines [std::getline] will
    deliver, and the value the [k]-th [std::cin >> tmp] leaves in [tmp]
    (whatever the text is, one value is pushed per extraction). *)
Record stdin : Type := {
  lines : list string;
  numbers : nat -> fp_t
}.

Definition isspace (c : ascii) : bool :=
  let n := nat_of_ascii c in
  (Nat.eqb n 32 || (Nat.leb 9 n && Nat.leb n 13))%bool.

Definition digit_of (c : ascii) : option Z :=
  let n := nat_of_ascii c in
  if (Nat.leb 48 n && Nat.leb n 57)%bool then Some (Z.of_nat n - 48) else None.

Fixpoint atoi_digits (s : string) (acc : Z) : Z :=
  match s with
  | String c s' =>
      match digit_of c with
      | Some d => atoi_digits s' (10 * acc + d)
      | None => acc
      end
  | EmptyString => acc
  end.

Fixpoint skip_spaces (s : string) : string :=
  match s with
  | String c s' => if isspace c then skip_spaces s' else s
  | EmptyString => s
  end.

(** [atoi]: leading white space, an optional sign, decimal digits. *)
Definition atoi (s : string) : Z :=
  match skip_spaces s with
  | String "-"%char s' => - atoi_digits s' 0
  | String "+"%char s' => atoi_digits s' 0
  | s' => atoi_digits s' 0
  end.

(** [while(std::getline(std::cin, line) && line.at(0) == '#');]: the line the
    loop stops at.  [line.at(0)] on an empty line throws.  When the input
    runs out [std::getline] fails and the loop ends; the line is then taken
    to be empty ([atoi] reads 0 from it, as it would from a comment line left
    in place). *)
Fixpoint skip_comments (ls : list string) : outcome string :=
  match ls with
  | [] => Returns EmptyString
  | line :: rest =>
      match line with
      | EmptyString => Fails OutOfRange
      | String c _ =>
          if Ascii.eqb c "#" then skip_comments rest else Returns line
      end
  end.

(** The lambda [fill]: [k] iterations to go, [pos] extractions done so far. *)
Fixpoint fill (k : nat) (numbers : nat -> fp_t) (pos : nat) (q : list fp_t)
    : list fp_t * nat :=
  match k with
  | O => (q, pos)
  | S k' => fill k' numbers (S pos) (q ++ [numbers pos])
  end.

Definition parseInput (input : stdin) : outcome (list fp_t * list fp_t) :=
  line <- skip_comments (lines input) ;;
  let numValues := wrap32 (atoi line) in
  let (reference, pos) := fill (Z.to_nat numValues) (numbers input) 0 [] in
  let (offset, _) := fill (Z.to_nat numValues) (numbers input) pos [] in
  Returns (reference, offset).

(* ================================================================== *)
(** ** Sequential driver *)

Section Driver.

Context {R : RandomSource}.

(** The variables of [main] inside the loop.  [tested] is a ghost counter of
    the calls to [rejected] made so far. *)
Record driver : Type := {
  first : list fp_t;
  second : list fp_t;
  x : list fp_t;
  y : list fp_t;
  current : Z;
  gen : rng;
  tested : nat
}.

(** How the process ends: [return(1)], [return(0)], or a failure after
    [tests] calls to [rejected]. *)
Inductive termination : Type :=
| Rejected (d : driver)
| Exhausted (d : driver)
| Crash (f : failure) (tests : nat).

Definition exit_status (t : termination) : option Z :=
  match t with
  | Rejected _ => Some 1
  | Exhausted _ => Some 0
  | Crash _ _ => None
  end.

(** One evaluation of the loop condition and, when it holds, of the body:
    either the next state or the end of the run. *)
Definition round (d : driver) : driver + termination :=
  if current d <=? MAX_SAMPLE_SIZE then
    match rejected (x d) (y d) (gen d) with
    | Fails f => inr (Crash f (tested d))
    | Returns (true, g') =>
        inr (Rejected {| first := first d; second := second d;
                         x := x d; y := y d; current := current d;
                         gen := g'; tested := S (tested d) |})
    | Returns (false, g') =>
        match
          '(r1, first') <- readSamples (first d) 1 ;;
          v1 <- front r1 ;;
          let x' := x d ++ [v1] in
          '(r2, second') <- readSamples (second d) 1 ;;
          v2 <- front r2 ;;
          let y' := y d ++ [v2] in
          Returns {| first := first'; second := second';
                     x := x'; y := y'; current := wrap32 (current d + 1);
                     gen := g'; tested := S (tested d) |}
        with
        | Returns d' => inl d'
        | Fails f => inr (Crash f (S (tested d)))
        end
    end
  else inr (Exhausted d).

(** The [while] loop; [None] when [fuel] rounds were not enough. *)
Fixpoint while_loop (fuel : nat) (d : driver) : option termination :=
  match fuel with
  | O => None
  | S fuel' =>
      match round d with
      | inl d' => while_loop fuel' d'
      | inr t => Some t
      end
  end.

(** [main] from the parsed input on: the size assertion and the two initial
    reads.  The result is the state in which the loop is entered. *)
Definition startup (samples : list fp_t * list fp_t) (g : rng)
    : outcome driver :=
  _ <- assert ((INITAL_SAMPLE_SIZE <=? size (fst samples)) &&
               (MAX_SAMPLE_SIZE <=? size (fst samples))) ;;
  '(x0, first') <- readSamples (fst samples) INITAL_SAMPLE_SIZE ;;
  '(y0, second') <- readSamples (snd samples) INITAL_SAMPLE_SIZE ;;
  Returns {| first := first'; second := second'; x := x0; y := y0;
             current := INITAL_SAMPLE_SIZE; gen := g; tested := O |}.

(** Enough rounds for [current] to pass [MAX_SAMPLE_SIZE]. *)
Definition rounds_bound : nat :=
  Z.to_nat (MAX_SAMPLE_SIZE - INITAL_SAMPLE_SIZE + 2).

Definition run (samples : list fp_t * list fp_t) (g : rng)
    : option termination :=
  match startup samples g with
  | Fails f => Some (Crash f O)
  | Returns d => while_loop rounds_bound d
  end.

(** The whole program: [g] is the generator as seeded from
    [std::random_device]. *)
Definition main (input : stdin) (g : rng) : option termination :=
  match parseInput input with
  | Fails f => Some (Crash f O)
  | Returns samples => run samples g
  end.

End Driver.

(* ================================================================== *)
(** ** A random source for examples

    Draws come in blocks of two: the low end of the range twice, then the
    next value twice, and over again.  The state is the position in that
    cycle of four. *)

Definition block_draw (a b g : Z) : Z * Z :=
  (Z.max a (Z.min b (a + (g / 2) mod 2)), (g + 1) mod 4).

#[export] Instance block_source : RandomSource.
Proof.
  refine {| rng := Z; uniform := block_draw |}.
  intros a b g Hab. unfold block_draw. simpl. lia.
Defined.

(* ================================================================== *)
(** ** Definitions used to state the properties *)

(** The sum of the first [k] observations, added in index order. *)
Fixpoint partial_sum (k : nat) (values : list fp_t) : fp_t :=
  match k with
  | O => 0%float
  | S k' => (partial_sum k' values + nth k' values 0%float)%float
  end.

Definition sum (values : list fp_t) : fp_t :=
  partial_sum (length values) values.

(** An integer (possibly negative) as a double. *)
Definition int_to_fp (z : Z) : fp_t :=
  if z <? 0 then (- size_to_fp (- z))%float else size_to_fp z.

(** The element of [values] at the position a double designates, if it
    designates one. *)
Definition element_at (values : list fp_t) (d : fp_t) : option fp_t :=
  match fp_to_size d with
  | Some i => nth_error values (Z.to_nat i)
  | None => None
  end.

(** An input whose observations are all zero: the count line [count],
    and 0.0 from every extraction. *)
Definition zeros_input (count : string) : stdin :=
  {| lines := [count]; numbers := fun _ => 0%float |}.

(** The mean difference of a resampled pair of groups. *)
Definition difference (p : list fp_t * list fp_t) : fp_t :=
  (average (fst p) - average (snd p))%float.

Definition exchange {A B : Type} (p : A * B) : B * A := (snd p, fst p).

(** The pairs of resamples the loop of [rejected] draws in [k] rounds. *)
Fixpoint resample_rounds {R : RandomSource} (k : nat) (x y : list fp_t)
    (g : rng) : outcome (list (list fp_t * list fp_t) * rng) :=
  match k with
  | O => Returns ([], g)
  | S k' =>
      '(xSample, g1) <- sample x (wrap32 (size x)) g ;;
      '(ySample, g2) <- sample y (wrap32 (size y)) g1 ;;
      '(rest, g') <- resample_rounds k' x y g2 ;;
      Returns ((xSample, ySample) :: rest, g')
  end.

(** How many replicates lie below zero, and how many above. *)
Definition count_below (l : list fp_t) : nat :=
  length (filter (fun d => (d <? 0)%float) l).

Definition count_above (l : list fp_t) : nat :=
  length (filter (fun d => (0 <? d)%float) l).

(** The state at the head of the loop after [k] rounds without rejection:
    the groups are the first [4 + k] observations of each backlog. *)
Definition driver_at {R : RandomSource} (samples : list fp_t * list fp_t)
    (k : nat) (g : rng) : driver :=
  {| first := skipn (4 + k) (fst samples);
     second := skipn (4 + k) (snd samples);
     x := firstn (4 + k) (fst samples);
     y := firstn (4 + k) (snd samples);
     current := INITAL_SAMPLE_SIZE + Z.of_nat k;
     gen := g;
     tested := k |}.

(** The signs a double can have, and their place in the ascending order. *)
Inductive sign : Type := Negative | Zero | Positive | NotANumber.

Definition flip (s : sign) : sign :=
  match s with
  | Negative => Positive
  | Positive => Negative
  | Zero => Zero
  | NotANumber => NotANumber
  end.

Definition sf_sign (f : spec_float) : sign :=
  match f with
  | S754_nan => NotANumber
  | S754_zero _ => Zero
  | S754_infinity s | S754_finite s _ _ => if s then Negative else Positive
  end.

Definition sign_of (d : fp_t) : sign := sf_sign (Prim2SF d).

(** Position of a sign in the ascending order. *)
Definition rank (s : sign) : nat :=
  match s with
  | Negative => 0
  | Zero => 1
  | Positive => 2
  | NotANumber => 3
  end.

Definition sign_le (a b : fp_t) : Prop :=
  (rank (sign_of a) <= rank (sign_of b))%nat.

Definition no_nan (l : list fp_t) : Prop :=
  Forall (fun d => is_nan d = false) l.

(** Ascending with respect to [<=] on doubles. *)
Definition ascending (l : list fp_t) : Prop :=
  StronglySorted (fun a b => (a <=? b)%float = true) l.

(** Comparison of two finite doubles of the same sign by exponent, then by
    mantissa, as [SFcompare] does it. *)
Definition lex (e : Z) (m : positive) (e' : Z) (m' : positive) : comparison :=
  match e ?= e' with
  | Lt => Lt
  | Gt => Gt
  | Eq => Pos.compare_cont Eq m m'
  end.

(** A line that the header loop of [parseInput] skips. *)
Definition is_comment (line : string) : bool :=
  match line with
  | String c _ => Ascii.eqb c "#"
  | EmptyString => false
  end.

(** [line] is what the header loop of [parseInput] stops at: the first line
    that is not a comment, or the empty string when every line is one. *)
Definition count_line (ls : list string) (line : string) : Prop :=
  (exists comments rest,
     ls = comments ++ line :: rest
     /\ forallb is_comment comments = true
     /\ line <> EmptyString /\ is_comment line = false)
  \/ (forallb is_comment ls = true /\ line = EmptyString).

(** The states a run passes through at the head of the loop. *)
Inductive reaches {R : RandomSource} : driver -> driver -> Prop :=
| reaches_here (d : driver) : reaches d d
| reaches_next (d d' d'' : driver) :
    round d = inl d' -> reaches d' d'' -> reaches d d''.

(** The number of calls to [rejected] a run has made when it ends. *)
Definition tests_of {R : RandomSource} (t : termination) : nat :=
  match t with
  | Rejected d | Exhausted d => tested d
  | Crash _ n => n
  end.

(** The state in which the run ends when the test of round [k] rejects. *)
Definition rejected_at {R : RandomSource} (samples : list fp_t * list fp_t)
    (k : nat) (g : rng) : driver :=
  {| first := skipn (4 + k) (fst samples);
     second := skipn (4 + k) (snd samples);
     x := firstn (4 + k) (fst samples);
     y := firstn (4 + k) (snd samples);
     current := INITAL_SAMPLE_SIZE + Z.of_nat k;
     gen := g;
     tested := S k |}.

(* ================================================================== *)
(** * Properties *)

(** ** Sizes and indexing *)

(** Closes [true = (0 <=? i) && (i <? n)] from the bounds in the context. *)
Ltac in_bounds :=
  symmetry; apply andb_true_iff; split; [apply Z.leb_le | apply Z.ltb_lt]; lia.

Lemma size_nonneg {A : Type} (v : list A) : 0 <= size v.
Proof. unfold size; lia. Qed.

Lemma size_nil_iff {A : Type} (v : list A) : size v = 0 <-> v = [].
Proof.
  unfold size; split; intros H.
  - destruct v; [reflexivity | simpl in H; lia].
  - now subst.
Qed.

Lemma index_in_range {A : Type} (values : list A) (i : Z) :
  0 <= i < size values ->
  exists v, index values i = Returns v /\ nth_error values (Z.to_nat i) = Some v.
Proof.
  intros Hi. unfold index.
  replace ((0 <=? i) && (i <? size values)) with true by in_bounds.
  destruct (nth_error values (Z.to_nat i)) as [v|] eqn:E.
  - now exists v.
  - apply nth_error_None in E. unfold size in Hi. lia.
Qed.

Lemma at_in_range {A : Type} (values : list A) (i : Z) :
  0 <= i < size values ->
  exists v, at_ values i = Returns v /\ nth_error values (Z.to_nat i) = Some v.
Proof.
  intros Hi. unfold at_.
  replace ((0 <=? i) && (i <? size values)) with true by in_bounds.
  destruct (nth_error values (Z.to_nat i)) as [v|] eqn:E.
  - now exists v.
  - apply nth_error_None in E. unfold size in Hi. lia.
Qed.

Lemma at_returns_iff {A : Type} (values : list A) (i : Z) (v : A) :
  at_ values i = Returns v <-> 0 <= i /\ nth_error values (Z.to_nat i) = Some v.
Proof.
  unfold at_. split.
  - destruct ((0 <=? i) && (i <? size values)) eqn:E; [|discriminate].
    apply andb_true_iff in E as [E1 E2]. apply Z.leb_le in E1.
    destruct (nth_error values (Z.to_nat i)); [|discriminate].
    intros [= ->]. now split.
  - intros [Hi Hn].
    assert (Hlt : (Z.to_nat i < length values)%nat)
      by (apply nth_error_Some; congruence).
    replace ((0 <=? i) && (i <? size values)) with true
      by (unfold size; in_bounds).
    now rewrite Hn.
Qed.

(** The bound handed to the distribution designates an element whenever the
    vector has one. *)
Lemma wrap64_pred_size {A : Type} (v : list A) :
  v <> [] -> 0 <= wrap64 (size v - 1) <= size v - 1.
Proof.
  intros Hv. unfold wrap64.
  assert (0 < size v).
  { pose proof (size_nonneg v). destruct (Z.eq_dec (size v) 0) as [E|]; [|lia].
    apply size_nil_iff in E. contradiction. }
  pose proof (Z.mod_pos_bound (size v - 1) (2 ^ 64) ltac:(lia)).
  pose proof (Z.mod_le (size v - 1) (2 ^ 64) ltac:(lia) ltac:(lia)).
  lia.
Qed.

(* ------------------------------------------------------------------ *)
(** ** Acquisition stub *)

Lemma readSamples_loop_spec (k : nat) :
  forall input result,
    (k <= length input)%nat ->
    readSamples_loop k input result
    = Returns (result ++ firstn k input, skipn k input).
Proof.
  induction k as [|k IH]; intros input result Hk; simpl.
  - now rewrite app_nil_r.
  - destruct input as [|v rest]; simpl in *; [lia|].
    rewrite IH by lia. now rewrite <- app_assoc.
Qed.

(** What [readSamples] does for every request [n]. *)
Lemma readSamples_eq (input : list fp_t) (n : N) :
  readSamples input (Z.of_N n)
  = if (1 <=? Z.of_N n) && (Z.of_N n <=? size input)
    then Returns (firstn (N.to_nat n) input, skipn (N.to_nat n) input)
    else Fails AssertionFailure.
Proof.
  unfold readSamples, assert.
  destruct (Z.leb_spec (Z.of_N n) (size input)) as [Hle|Hgt];
    destruct (Z.eqb_spec (Z.of_N n) 0) as [H0|H0];
    destruct (Z.leb_spec 1 (Z.of_N n)) as [H1|H1]; simpl; try lia; try reflexivity.
  rewrite readSamples_loop_spec by (unfold size in Hle; lia).
  now rewrite <- Z_N_nat, N2Z.id.
Qed.

(** C10 (as amended): [readSamples] removes and returns the next [n]
    observations in arrival order and leaves the rest of the backlog intact
    and in order; it succeeds exactly when [1 <= n] and at least [n]
    observations remain, and fails the assertion otherwise: when fewer than
    [n] remain and also when [n = 0]. *)
Theorem readSamples_spec (input : list fp_t) (n : N) :
  (1 <= Z.of_N n <= size input ->
     readSamples input (Z.of_N n)
     = Returns (firstn (N.to_nat n) input, skipn (N.to_nat n) input)
     /\ size (firstn (N.to_nat n) input) = Z.of_N n
     /\ firstn (N.to_nat n) input ++ skipn (N.to_nat n) input = input)
  /\ (size input < Z.of_N n -> readSamples input (Z.of_N n) = Fails AssertionFailure)
  /\ (n = 0%N -> readSamples input (Z.of_N n) = Fails AssertionFailure).
Proof.
  rewrite readSamples_eq. repeat split.
  - destruct H as [H1 H2].
    apply Z.leb_le in H1, H2. now rewrite H1, H2.
  - unfold size in *. rewrite length_firstn. lia.
  - apply firstn_skipn.
  - intros H. apply Z.leb_gt in H. rewrite H. now rewrite andb_false_r.
  - intros ->. reflexivity.
Qed.

Lemma readSamples_spec_witness :
  1 <= Z.of_N 2 <= size [1; 2; 3]%float
  /\ readSamples [1; 2; 3]%float (Z.of_N 2) = Returns ([1; 2]%float, [3]%float)
  /\ size [1]%float < Z.of_N 2
  /\ readSamples [1]%float (Z.of_N 2) = Fails AssertionFailure
  /\ readSamples [1]%float (Z.of_N 0) = Fails AssertionFailure.
Proof.
  assert (H : 1 <= Z.of_N 2 <= size [1; 2; 3]%float)
    by (vm_compute; split; discriminate).
  split; [exact H|].
  split; [exact (proj1 (proj1 (readSamples_spec [1; 2; 3]%float 2) H))|].
  split; [reflexivity|].
  split.
  - exact (proj1 (proj2 (readSamples_spec [1]%float 2)) eq_refl).
  - exact (proj2 (proj2 (readSamples_spec [1]%float 0)) eq_refl).
Defined.

(** C10 (as stated) fails: two observations remain, none is requested, and
    the call fails its assertion. *)
Lemma readSamples_zero_fails :
  0 <= size [1; 2]%float /\ readSamples [1; 2]%float 0 = Fails AssertionFailure.
Proof. split; [discriminate | reflexivity]. Qed.

(* ------------------------------------------------------------------ *)
(** ** Statistic function *)

Lemma partial_sum_app (k : nat) :
  forall u v, (k <= length u)%nat -> partial_sum k (u ++ v) = partial_sum k u.
Proof.
  induction k as [|k IH]; intros u v Hk; simpl; [reflexivity|].
  rewrite IH by lia. now rewrite app_nth1 by lia.
Qed.

Lemma fold_left_add_sum (values : list fp_t) :
  fold_left (fun acc val => (acc + val)%float) values 0%float = sum values.
Proof.
  unfold sum.
  induction values as [|v values IH] using rev_ind; [reflexivity|].
  rewrite fold_left_app, length_app, Nat.add_comm. simpl.
  rewrite partial_sum_app, app_nth2, Nat.sub_diag by lia. simpl.
  f_equal. exact IH.
Qed.

(** C4 (as amended): on an empty group [average] does not fail; the division
    of 0.0 by 0 yields NaN, which is what the call returns, so no numeric
    value is returned.  On every other group it returns the sum of the
    observations (added in order) divided by their count. *)
Theorem average_spec (values : list fp_t) :
  average values
  = match values with
    | [] => nan
    | _ :: _ => (sum values / size_to_fp (size values))%float
    end.
Proof.
  destruct values as [|v values]; [reflexivity|].
  unfold average. cbv zeta. f_equal. apply fold_left_add_sum.
Qed.

(** C4 (as stated) fails: the call on the empty group returns, and what it
    returns is NaN. *)
Lemma average_empty_returns_nan :
  average [] = nan /\ is_nan (average []) = true.
Proof. split; reflexivity. Qed.

Example average_1_2_3 : average [1; 2; 3]%float = 2%float.
Proof. reflexivity. Qed.

(* ------------------------------------------------------------------ *)
(** ** Resampler *)

Section Resampler.

Context {R : RandomSource}.

Lemma sample_loop_spec (values : list fp_t) (hi : Z) :
  0 <= hi <= size values - 1 ->
  forall (k : nat) (result : list fp_t) (g : rng),
  exists r g',
    sample_loop k values hi result g = Returns (result ++ r, g')
    /\ length r = k
    /\ Forall (fun e => In e values) r.
Proof.
  intros Hhi. induction k as [|k IH]; intros result g; simpl.
  - exists [], g. rewrite app_nil_r. auto.
  - pose proof (uniform_range 0 hi g ltac:(lia)) as Hr.
    destruct (uniform 0 hi g) as [i g1]. simpl in Hr.
    destruct (index_in_range values i ltac:(lia)) as (v & Hv & Hnth).
    rewrite Hv. simpl.
    destruct (IH (result ++ [v]) g1) as (r & g' & Hrun & Hlen & Hin).
    exists (v :: r), g'. rewrite Hrun, <- app_assoc. simpl.
    repeat split; [lia|]. constructor; [|exact Hin].
    eapply nth_error_In; eauto.
Qed.

(** [sample] returns whenever the source vector has an element, and also on
    an empty vector when nothing is asked for. *)
Lemma sample_returns (values : list fp_t) (sampleSize : Z) (g : rng) :
  values <> [] \/ sampleSize <= 0 ->
  exists r g',
    sample values sampleSize g = Returns (r, g')
    /\ length r = Z.to_nat sampleSize
    /\ Forall (fun e => In e values) r.
Proof.
  intros [Hv|Hn]; unfold sample.
  - destruct (sample_loop_spec values (wrap64 (size values - 1))
                (wrap64_pred_size values Hv) (Z.to_nat sampleSize) [] g)
      as (r & g' & H1 & H2 & H3).
    now exists r, g'.
  - replace (Z.to_nat sampleSize) with O by lia. simpl.
    exists [], g. auto.
Qed.

(** C8: for a non-empty group [v] and [n > 0], [sample v n] returns exactly
    [n] elements, each of them a value present in [v]. *)
Theorem sample_spec (v : list fp_t) (n : Z) (g : rng) :
  v <> [] -> 0 < n ->
  exists r g',
    sample v n g = Returns (r, g')
    /\ size r = n
    /\ (forall e, In e r -> In e v).
Proof.
  intros Hv Hn.
  destruct (sample_returns v n g (or_introl Hv)) as (r & g' & H1 & H2 & H3).
  exists r, g'. repeat split; [exact H1 | unfold size; lia |].
  now apply Forall_forall.
Qed.

End Resampler.

Lemma sample_spec_witness :
  [1; 2]%float <> [] /\ 0 < 3
  /\ exists r g',
       sample [1; 2]%float 3 (0 : @rng block_source) = Returns (r, g')
       /\ size r = 3
       /\ (forall e, In e r -> In e [1; 2]%float).
Proof.
  split; [discriminate|]. split; [reflexivity|].
  apply (@sample_spec block_source [1; 2]%float 3 0); [discriminate | reflexivity].
Defined.

(* ------------------------------------------------------------------ *)
(** ** Percentile interval estimator *)

Lemma fp_to_size_range (d : fp_t) (i : Z) :
  fp_to_size d = Some i -> 0 <= i < 2 ^ 64.
Proof.
  unfold fp_to_size.
  destruct (Prim2SF d) as [s|s| |s m e]; try discriminate.
  - intros [= <-]. lia.
  - cbv zeta.
    destruct ((0 <=? cond_Zopp s (Z.shiftl (Z.pos m) e))
              && (cond_Zopp s (Z.shiftl (Z.pos m) e) <? 2 ^ 64)) eqn:E;
      [|discriminate].
    intros [= <-]. apply andb_true_iff in E as [E1 E2].
    apply Z.leb_le in E1. apply Z.ltb_lt in E2. lia.
Qed.

Lemma at_fp_returns_iff (values : list fp_t) (d v : fp_t) :
  at_fp values d = Returns v <-> element_at values d = Some v.
Proof.
  unfold at_fp, element_at.
  destruct (fp_to_size d) as [i|] eqn:E.
  - rewrite at_returns_iff. apply fp_to_size_range in E. intuition.
  - split; discriminate.
Qed.

Lemma getInterval_returns_iff (values : list fp_t) (alpha lower upper : fp_t) :
  let halfAlpha := (alpha / 2)%float in
  let n := size_to_fp (wrap64 (size values - 1)) in
  getInterval values alpha = Returns (lower, upper)
  <-> element_at values (floor (n * halfAlpha)%float) = Some lower
      /\ element_at values (ceil (n * (1 - halfAlpha))%float) = Some upper.
Proof.
  cbv zeta. unfold getInterval. cbv zeta.
  rewrite <- !at_fp_returns_iff.
  destruct (at_fp values (floor _)) as [lo|f]; simpl.
  - destruct (at_fp values (ceil _)) as [hi|f']; simpl.
    + split; [intros [= -> ->]; auto | intros [[= ->] [= ->]]; reflexivity].
    + split; [discriminate | intros [_ ?]; discriminate].
  - split; [discriminate | intros [? _]; discriminate].
Qed.

(** The two positions for 101 elements and [alpha = 0.1]. *)
Lemma positions_101 :
  floor (int_to_fp (101 - 1) * (0.1 / 2))%float = 5%float
  /\ ceil (int_to_fp (101 - 1) * (1 - 0.1 / 2))%float = 95%float
  /\ fp_to_size 5%float = Some 5 /\ fp_to_size 95%float = Some 95.
Proof. repeat split; vm_compute; reflexivity. Qed.

(** C6: for a replicate set of [m] elements and a significance level [alpha],
    with [lowerIndex = (m-1)*(alpha/2)] and [upperIndex = (m-1)*(1-alpha/2)],
    [getInterval] returns a pair exactly when there are elements at positions
    [floor(lowerIndex)] and [ceil(upperIndex)], and the pair it returns
    consists of those two elements; for [m = 101] and [alpha = 0.1] the
    positions are 5 and 95. *)
Theorem getInterval_spec (values : list fp_t) (alpha : fp_t) :
  size values < 2 ^ 64 ->
  let m := size values in
  let lowerIndex := (int_to_fp (m - 1) * (alpha / 2))%float in
  let upperIndex := (int_to_fp (m - 1) * (1 - alpha / 2))%float in
  (forall lower upper,
     getInterval values alpha = Returns (lower, upper)
     <-> element_at values (floor lowerIndex) = Some lower
         /\ element_at values (ceil upperIndex) = Some upper)
  /\ (m = 101 -> alpha = 0.1%float ->
      floor lowerIndex = 5%float /\ ceil upperIndex = 95%float
      /\ exists lower upper,
           nth_error values 5 = Some lower /\ nth_error values 95 = Some upper
           /\ getInterval values alpha = Returns (lower, upper)).
Proof.
  intros Hsize m lowerIndex upperIndex.
  assert (Hgen : forall lower upper,
     getInterval values alpha = Returns (lower, upper)
     <-> element_at values (floor lowerIndex) = Some lower
         /\ element_at values (ceil upperIndex) = Some upper).
  { intros lower upper. subst lowerIndex upperIndex m.
    destruct values as [|v values].
    - split.
      + unfold getInterval. cbv zeta. unfold at_fp.
        destruct (fp_to_size _) as [i|] eqn:Ei; [|discriminate].
        unfold at_. rewrite andb_comm.
        replace (i <? size []) with false; [discriminate|].
        symmetry. apply Z.ltb_ge. apply fp_to_size_range in Ei.
        change (@size fp_t []) with 0. lia.
      + intros [H _]. unfold element_at in H.
        destruct (fp_to_size _) as [i|]; [|discriminate].
        destruct (Z.to_nat i); discriminate.
    - rewrite getInterval_returns_iff.
      assert (E : wrap64 (size (v :: values) - 1) = size (v :: values) - 1).
      { unfold wrap64. apply Z.mod_small. unfold size in *. simpl length in *. lia. }
      rewrite E. unfold int_to_fp.
      replace (size (v :: values) - 1 <? 0) with false; [reflexivity|].
      symmetry. apply Z.ltb_ge. unfold size. simpl length. lia. }
  split; [exact Hgen|].
  intros Hm ->. subst lowerIndex upperIndex. rewrite Hm.
  destruct positions_101 as (Hlo & Hhi & H5 & H95).
  rewrite Hlo, Hhi. split; [reflexivity|]. split; [reflexivity|].
  destruct (at_in_range values 5 ltac:(fold m; lia)) as (lower & _ & Hl).
  destruct (at_in_range values 95 ltac:(fold m; lia)) as (upper & _ & Hu).
  exists lower, upper. split; [exact Hl|]. split; [exact Hu|].
  apply Hgen. fold m. rewrite Hm, Hlo, Hhi.
  unfold element_at. rewrite H5, H95. auto.
Qed.

Lemma getInterval_spec_witness :
  let hundred_one := map (fun k => Z_to_fp (Z.of_nat k)) (seq 0 101) in
  size [1; 2; 3]%float < 2 ^ 64
  /\ getInterval [1; 2; 3]%float 0.5%float = Returns (1%float, 3%float)
  /\ size hundred_one = 101
  /\ getInterval hundred_one 0.1%float = Returns (5%float, 95%float).
Proof.
  intros hundred_one.
  assert (H : size [1; 2; 3]%float < 2 ^ 64) by reflexivity.
  assert (H' : size hundred_one < 2 ^ 64) by reflexivity.
  split; [exact H|].
  split.
  { apply (proj1 (getInterval_spec [1; 2; 3]%float 0.5%float H)).
    split; reflexivity. }
  split; [reflexivity|].
  destruct (proj2 (getInterval_spec hundred_one 0.1%float H') eq_refl eq_refl)
    as (_ & _ & lower & upper & Hl & Hu & Hget).
  vm_compute in Hl, Hu.
  injection Hl as <-. injection Hu as <-. exact Hget.
Defined.

(** The two positions for [BOOTSTRAP_SAMPLES] elements and
    [SIGNIFICANCE_ALPHA]. *)
Lemma positions_bootstrap :
  let n := size_to_fp (wrap64 (BOOTSTRAP_SAMPLES - 1)) in
  let halfAlpha := (SIGNIFICANCE_ALPHA / 2)%float in
  fp_to_size (floor (n * halfAlpha)%float) = Some 49
  /\ fp_to_size (ceil (n * (1 - halfAlpha))%float) = Some 9950.
Proof. split; vm_compute; reflexivity. Qed.

(** With [BOOTSTRAP_SAMPLES] elements [getInterval] returns the elements at
    positions 49 and 9950. *)
Lemma getInterval_bootstrap (values : list fp_t) :
  size values = BOOTSTRAP_SAMPLES ->
  exists lower upper,
    nth_error values (Z.to_nat 49) = Some lower
    /\ nth_error values (Z.to_nat 9950) = Some upper
    /\ getInterval values SIGNIFICANCE_ALPHA = Returns (lower, upper).
Proof.
  intros Hsize.
  destruct positions_bootstrap as [Hlo Hhi]. cbv zeta in Hlo, Hhi.
  destruct (at_in_range values 49) as (lower & _ & Hl);
    [rewrite Hsize; split; [discriminate | reflexivity]|].
  destruct (at_in_range values 9950) as (upper & _ & Hu);
    [rewrite Hsize; split; [discriminate | reflexivity]|].
  exists lower, upper. split; [exact Hl|]. split; [exact Hu|].
  apply getInterval_returns_iff. rewrite Hsize.
  unfold element_at. rewrite Hlo, Hhi. auto.
Qed.

(** C7: for a replicate set of [BOOTSTRAP_SAMPLES] = 10000 elements and
    [alpha] = 0.01 both accesses of [getInterval] are within bounds: the
    positions are 49 and 9950, and the call returns the elements there. *)
Theorem getInterval_in_bounds (values : list fp_t) :
  size values = BOOTSTRAP_SAMPLES ->
  let n := size_to_fp (wrap64 (size values - 1)) in
  let lowerIndex := (n * (SIGNIFICANCE_ALPHA / 2))%float in
  let upperIndex := (n * (1 - SIGNIFICANCE_ALPHA / 2))%float in
  exists i j,
    fp_to_size (floor lowerIndex) = Some i
    /\ fp_to_size (ceil upperIndex) = Some j
    /\ 0 <= i /\ j < size values
    /\ i = 49 /\ j = 9950
    /\ exists lower upper,
         nth_error values (Z.to_nat 49) = Some lower
         /\ nth_error values (Z.to_nat 9950) = Some upper
         /\ getInterval values SIGNIFICANCE_ALPHA = Returns (lower, upper).
Proof.
  intros Hsize. cbv zeta.
  pose proof (getInterval_bootstrap values Hsize) as Hget.
  rewrite Hsize.
  destruct positions_bootstrap as [Hlo Hhi]. cbv zeta in Hlo, Hhi.
  exists 49, 9950. rewrite Hlo, Hhi.
  do 2 (split; [reflexivity|]). split; [lia|].
  split; [reflexivity|]. do 2 (split; [reflexivity|]).
  exact Hget.
Qed.

Lemma getInterval_in_bounds_witness :
  size (repeat 0%float (Z.to_nat 10000)) = BOOTSTRAP_SAMPLES
  /\ exists i j,
    fp_to_size (floor (size_to_fp (wrap64 (size (repeat 0%float (Z.to_nat 10000)) - 1))
                       * (SIGNIFICANCE_ALPHA / 2))%float) = Some i
    /\ fp_to_size (ceil (size_to_fp (wrap64 (size (repeat 0%float (Z.to_nat 10000)) - 1))
                         * (1 - SIGNIFICANCE_ALPHA / 2))%float) = Some j
    /\ 0 <= i /\ j < size (repeat 0%float (Z.to_nat 10000))
    /\ i = 49 /\ j = 9950
    /\ exists lower upper,
         nth_error (repeat 0%float (Z.to_nat 10000)) (Z.to_nat 49) = Some lower
         /\ nth_error (repeat 0%float (Z.to_nat 10000)) (Z.to_nat 9950) = Some upper
         /\ getInterval (repeat 0%float (Z.to_nat 10000)) SIGNIFICANCE_ALPHA
            = Returns (lower, upper).
Proof.
  assert (H : size (repeat 0%float (Z.to_nat 10000)) = BOOTSTRAP_SAMPLES)
    by (vm_compute; reflexivity).
  split; [exact H|].
  exact (getInterval_in_bounds (repeat 0%float (Z.to_nat 10000)) H).
Defined.

(* ------------------------------------------------------------------ *)
(** ** Hypothesis tester *)

Lemma insert_length (a : fp_t) (l : list fp_t) :
  length (insert a l) = S (length l).
Proof.
  induction l as [|b l IH]; simpl; [reflexivity|].
  destruct (b <? a)%float; simpl; [now rewrite IH | reflexivity].
Qed.

Lemma sort_length (l : list fp_t) : length (sort l) = length l.
Proof.
  induction l as [|a l IH]; simpl; [reflexivity|].
  now rewrite insert_length, IH.
Qed.

Lemma sort_size (l : list fp_t) : size (sort l) = size l.
Proof. unfold size. now rewrite sort_length. Qed.

Section Tester.

Context {R : RandomSource}.

(** Resampling a group at its own size always returns. *)
Lemma sample_own_size (v : list fp_t) (g : rng) :
  exists r g',
    sample v (wrap32 (size v)) g = Returns (r, g')
    /\ Forall (fun e => In e v) r.
Proof.
  destruct (sample_returns v (wrap32 (size v)) g) as (r & g' & H1 & _ & H3).
  - destruct v as [|a v]; [right; reflexivity | left; discriminate].
  - now exists r, g'.
Qed.

Lemma bootstrap_loop_returns (x y : list fp_t) :
  forall (k : nat) (bootStrapped : list fp_t) (g : rng),
  exists reps g',
    bootstrap_loop k x y bootStrapped g = Returns (bootStrapped ++ reps, g')
    /\ length reps = k.
Proof.
  induction k as [|k IH]; intros acc g; simpl.
  - exists [], g. now rewrite app_nil_r.
  - destruct (sample_own_size x g) as (xs & g1 & Hx & _). rewrite Hx. simpl.
    destruct (sample_own_size y g1) as (ys & g2 & Hy & _). rewrite Hy. simpl.
    destruct (IH (acc ++ [(average xs - average ys)%float]) g2)
      as (reps & g' & Hrun & Hlen).
    exists ((average xs - average ys)%float :: reps), g'.
    rewrite Hrun, <- app_assoc. simpl. split; [reflexivity | lia].
Qed.

(** The tester returns on every pair of groups. *)
Lemma rejected_returns (x y : list fp_t) (g : rng) :
  exists b g', rejected x y g = Returns (b, g').
Proof.
  destruct (bootstrap_loop_returns x y (Z.to_nat BOOTSTRAP_SAMPLES) [] g)
    as (reps & g' & Hrun & Hlen).
  cbn [app] in Hrun.
  destruct (getInterval_bootstrap (sort reps)) as (lower & upper & _ & _ & Hint).
  { rewrite sort_size. unfold size. rewrite Hlen. reflexivity. }
  unfold rejected. rewrite Hrun. cbn [bind]. rewrite Hint. cbn [bind]. eauto.
Qed.

(** C5: [rejected] always returns, and it returns true exactly when the
    interval that [getInterval] derives from the sorted replicate set at
    [SIGNIFICANCE_ALPHA] does not contain zero, that is when
    [lower > 0] or [upper < 0]; otherwise it returns false. *)
Theorem rejected_spec (x y : list fp_t) (g : rng) :
  exists bootStrapped g' lower upper b,
    bootstrap_loop (Z.to_nat BOOTSTRAP_SAMPLES) x y [] g
    = Returns (bootStrapped, g')
    /\ size bootStrapped = BOOTSTRAP_SAMPLES
    /\ getInterval (sort bootStrapped) SIGNIFICANCE_ALPHA
       = Returns (lower, upper)
    /\ rejected x y g = Returns (b, g')
    /\ (b = true <-> (0 <? lower)%float = true \/ (upper <? 0)%float = true)
    /\ (b = false <-> (0 <? lower)%float = false /\ (upper <? 0)%float = false).
Proof.
  destruct (bootstrap_loop_returns x y (Z.to_nat BOOTSTRAP_SAMPLES) [] g)
    as (reps & g' & Hrun & Hlen).
  simpl app in Hrun.
  assert (Hsize : size reps = BOOTSTRAP_SAMPLES).
  { unfold size. rewrite Hlen. reflexivity. }
  destruct (getInterval_bootstrap (sort reps))
    as (lower & upper & _ & _ & Hint).
  { now rewrite sort_size. }
  exists reps, g', lower, upper,
    ((0 <? lower)%float || (upper <? 0)%float).
  split; [exact Hrun|]. split; [exact Hsize|]. split; [exact Hint|].
  split.
  - unfold rejected. rewrite Hrun. simpl. rewrite Hint. reflexivity.
  - split; [apply orb_true_iff | apply orb_false_iff].
Qed.

End Tester.

(* ------------------------------------------------------------------ *)
(** ** Input parsing *)

Lemma fill_spec (numbers : nat -> fp_t) :
  forall (k pos : nat) (q : list fp_t),
    fill k numbers pos q = (q ++ map numbers (seq pos k), (pos + k)%nat).
Proof.
  induction k as [|k IH]; intros pos q; simpl.
  - now rewrite app_nil_r, Nat.add_0_r.
  - rewrite IH, <- app_assoc. simpl. f_equal. lia.
Qed.

(** [parseInput] hands back two backlogs of one and the same length, the
    count [numValues] read from the first line that is not a comment. *)
Lemma parseInput_sizes (input : stdin) (samples : list fp_t * list fp_t) :
  parseInput input = Returns samples ->
  size (fst samples) = size (snd samples).
Proof.
  unfold parseInput.
  destruct (skip_comments (lines input)) as [line|f]; [|discriminate]. simpl.
  rewrite !fill_spec.
  intros [= <-]. simpl. unfold size. now rewrite !length_map, !length_seq.
Qed.

(* ------------------------------------------------------------------ *)
(** ** Sequential driver *)

Lemma skipn_cons_inv {A : Type} (n : nat) :
  forall (l : list A) (v : A) (rest : list A),
    skipn n l = v :: rest ->
    firstn (S n) l = firstn n l ++ [v] /\ skipn (S n) l = rest.
Proof.
  induction n as [|n IH]; intros l v rest H.
  - simpl in H. subst l. split; reflexivity.
  - destruct l as [|a l]; [discriminate|]. simpl in H.
    destruct (IH l v rest H) as [H1 H2].
    split; [|exact H2].
    change (firstn (S (S n)) (a :: l)) with (a :: firstn (S n) l).
    now rewrite H1.
Qed.

Lemma skipn_nil_iff {A : Type} (n : nat) (l : list A) :
  skipn n l = [] <-> (length l <= n)%nat.
Proof.
  split; intros H.
  - pose proof (length_skipn n l) as E. rewrite H in E. simpl in E. lia.
  - now apply skipn_all2.
Qed.

Section DriverProperties.

Context {R : RandomSource}.

(** The size assertion of [main] looks at the reference backlog only; the
    initial reads add that each backlog holds [INITAL_SAMPLE_SIZE]. *)
Lemma startup_fails (samples : list fp_t * list fp_t) (g : rng) :
  size (fst samples) < MAX_SAMPLE_SIZE ->
  startup samples g = Fails AssertionFailure.
Proof.
  intros H. unfold startup, assert.
  apply Z.leb_gt in H. rewrite H, andb_false_r. reflexivity.
Qed.

(** C2: when the backlog of either group holds fewer than [MAX_SAMPLE_SIZE]
    observations, the program fails an assertion before [rejected] is called
    even once. *)
Theorem main_insufficient_data (input : stdin) (g : rng)
    (samples : list fp_t * list fp_t) :
  parseInput input = Returns samples ->
  size (fst samples) < MAX_SAMPLE_SIZE \/ size (snd samples) < MAX_SAMPLE_SIZE ->
  startup samples g = Fails AssertionFailure
  /\ main input g = Some (Crash AssertionFailure 0).
Proof.
  intros Hparse Hsmall.
  assert (Hfst : size (fst samples) < MAX_SAMPLE_SIZE).
  { pose proof (parseInput_sizes input samples Hparse). lia. }
  pose proof (startup_fails samples g Hfst) as Hs.
  split; [exact Hs|].
  unfold main, run. now rewrite Hparse, Hs.
Qed.

Lemma startup_returns (samples : list fp_t * list fp_t) (g : rng) :
  MAX_SAMPLE_SIZE <= size (fst samples) ->
  INITAL_SAMPLE_SIZE <= size (snd samples) ->
  startup samples g = Returns (driver_at samples 0 g).
Proof.
  intros H1 H2. unfold startup, assert.
  replace (INITAL_SAMPLE_SIZE <=? size (fst samples)) with true
    by (symmetry; apply Z.leb_le; unfold MAX_SAMPLE_SIZE, INITAL_SAMPLE_SIZE in *; lia).
  replace (MAX_SAMPLE_SIZE <=? size (fst samples)) with true
    by (symmetry; apply Z.leb_le; lia).
  simpl.
  change INITAL_SAMPLE_SIZE with (Z.of_N 4) in *.
  rewrite !readSamples_eq.
  replace (Z.of_N 4 <=? size (fst samples)) with true
    by (symmetry; apply Z.leb_le; unfold MAX_SAMPLE_SIZE in *; lia).
  replace (Z.of_N 4 <=? size (snd samples)) with true
    by (symmetry; apply Z.leb_le; lia).
  reflexivity.
Qed.

(** The candidate backlog is never compared with [MAX_SAMPLE_SIZE]: with 60
    reference observations and 4 candidate ones the loop is entered. *)
Example startup_short_candidate (g : rng) :
  startup (repeat 0%float 60, repeat 0%float 4) g
  = Returns (driver_at (repeat 0%float 60, repeat 0%float 4) 0 g).
Proof. apply startup_returns; [reflexivity | reflexivity]. Qed.

(** One read of a single observation from what is left of a backlog. *)
Lemma read_one (backlog : list fp_t) (n : nat) :
  readSamples (skipn n backlog) 1
  = match skipn n backlog with
    | [] => Fails AssertionFailure
    | v :: rest => Returns ([v], rest)
    end.
Proof.
  destruct (skipn n backlog) as [|v rest]; [reflexivity|].
  unfold readSamples, assert.
  replace (1 <=? size (v :: rest)) with true; [reflexivity|].
  symmetry. apply Z.leb_le. unfold size. simpl length. lia.
Qed.

(** One round from [driver_at]: the tester returns; on [true] the run ends
    rejected, on [false] one observation moves from each backlog to its group
    when both backlogs have one left, and the run fails an assertion when
    either is empty. *)
Lemma round_at (samples : list fp_t * list fp_t) (k : nat) (g : rng) :
  INITAL_SAMPLE_SIZE + Z.of_nat k <= MAX_SAMPLE_SIZE ->
  exists b g',
    rejected (firstn (4 + k) (fst samples)) (firstn (4 + k) (snd samples)) g
    = Returns (b, g')
    /\ round (driver_at samples k g)
       = if b
         then inr (Rejected
                     {| first := skipn (4 + k) (fst samples);
                        second := skipn (4 + k) (snd samples);
                        x := firstn (4 + k) (fst samples);
                        y := firstn (4 + k) (snd samples);
                        current := INITAL_SAMPLE_SIZE + Z.of_nat k;
                        gen := g'; tested := S k |})
         else if (Z.of_nat (4 + k) <? size (fst samples))
                 && (Z.of_nat (4 + k) <? size (snd samples))
              then inl (driver_at samples (S k) g')
              else inr (Crash AssertionFailure (S k)).
Proof.
  intros Hk.
  destruct (rejected_returns (firstn (4 + k) (fst samples))
              (firstn (4 + k) (snd samples)) g) as (b & g' & Hrej).
  exists b, g'. split; [exact Hrej|].
  unfold round.
  change (current (driver_at samples k g)) with (INITAL_SAMPLE_SIZE + Z.of_nat k).
  change (x (driver_at samples k g)) with (firstn (4 + k) (fst samples)).
  change (y (driver_at samples k g)) with (firstn (4 + k) (snd samples)).
  change (gen (driver_at samples k g)) with g.
  change (first (driver_at samples k g)) with (skipn (4 + k) (fst samples)).
  change (second (driver_at samples k g)) with (skipn (4 + k) (snd samples)).
  change (tested (driver_at samples k g)) with k.
  replace (INITAL_SAMPLE_SIZE + Z.of_nat k <=? MAX_SAMPLE_SIZE) with true
    by (symmetry; now apply Z.leb_le).
  rewrite Hrej. destruct b; [reflexivity|].
  rewrite !read_one.
  destruct (skipn (4 + k) (fst samples)) as [|v1 rest1] eqn:E1.
  - apply skipn_nil_iff in E1.
    replace (Z.of_nat (4 + k) <? size (fst samples)) with false; [reflexivity|].
    symmetry. apply Z.ltb_ge. unfold size. lia.
  - assert (L1 : (4 + k < length (fst samples))%nat).
    { destruct (Nat.lt_ge_cases (4 + k) (length (fst samples))) as [?|Hge];
        [assumption|].
      apply skipn_nil_iff in Hge. congruence. }
    replace (Z.of_nat (4 + k) <? size (fst samples)) with true
      by (symmetry; apply Z.ltb_lt; unfold size; lia).
    apply skipn_cons_inv in E1 as [F1 S1].
    cbn [bind front andb].
    destruct (skipn (4 + k) (snd samples)) as [|v2 rest2] eqn:E2.
    + apply skipn_nil_iff in E2.
      replace (Z.of_nat (4 + k) <? size (snd samples)) with false; [reflexivity|].
      symmetry. apply Z.ltb_ge. unfold size. lia.
    + assert (L2 : (4 + k < length (snd samples))%nat).
      { destruct (Nat.lt_ge_cases (4 + k) (length (snd samples))) as [?|Hge];
          [assumption|].
        apply skipn_nil_iff in Hge. congruence. }
      replace (Z.of_nat (4 + k) <? size (snd samples)) with true
        by (symmetry; apply Z.ltb_lt; unfold size; lia).
      apply skipn_cons_inv in E2 as [F2 S2].
      cbn [bind front]. unfold driver_at.
      change (4 + S k)%nat with (S (4 + k)).
      rewrite F1, F2, S1, S2. do 2 f_equal.
      unfold wrap32, INITAL_SAMPLE_SIZE, MAX_SAMPLE_SIZE in *.
      rewrite Z.mod_small by lia. lia.
Qed.

End DriverProperties.

Section Runs.

Context {R : RandomSource}.

Lemma exhausted_at (samples : list fp_t * list fp_t) (k : nat) (g : rng) :
  MAX_SAMPLE_SIZE < INITAL_SAMPLE_SIZE + Z.of_nat k ->
  round (driver_at samples k g) = inr (Exhausted (driver_at samples k g)).
Proof.
  intros H. unfold round.
  change (current (driver_at samples k g)) with (INITAL_SAMPLE_SIZE + Z.of_nat k).
  apply Z.leb_gt in H. now rewrite H.
Qed.

(** How the loop ends from the state after [k] rounds, for backlogs of [N]
    observations each, [N >= MAX_SAMPLE_SIZE]: some later round rejects; or
    [N] is exactly [MAX_SAMPLE_SIZE] and the read that follows the 57th test
    fails its assertion; or [N] is larger and the loop is left with groups of
    [4 + 57] observations. *)
Lemma while_loop_from (samples : list fp_t * list fp_t) (N : Z) :
  size (fst samples) = N -> size (snd samples) = N -> MAX_SAMPLE_SIZE <= N ->
  forall (j k : nat) (g : rng) (fuel : nat),
    (k + j = 57)%nat -> INITAL_SAMPLE_SIZE + Z.of_nat k <= N -> (j < fuel)%nat ->
    exists t,
      while_loop fuel (driver_at samples k g) = Some t
      /\ ((exists i g1 g2 d,
             (k <= i <= 56)%nat
             /\ rejected (firstn (4 + i) (fst samples))
                         (firstn (4 + i) (snd samples)) g1 = Returns (true, g2)
             /\ t = Rejected d)
          \/ (N = MAX_SAMPLE_SIZE /\ t = Crash AssertionFailure 57)
          \/ (MAX_SAMPLE_SIZE < N
              /\ exists g', t = Exhausted (driver_at samples 57 g'))).
Proof.
  intros H1 H2 HN.
  unfold MAX_SAMPLE_SIZE, INITAL_SAMPLE_SIZE in *.
  induction j as [|j IH]; intros k g fuel Hkj Hk Hfuel;
    (destruct fuel as [|fuel]; [lia|]); simpl.
  - assert (k = 57%nat) by lia. subst k.
    rewrite exhausted_at by (unfold MAX_SAMPLE_SIZE, INITAL_SAMPLE_SIZE; lia).
    eexists. split; [reflexivity|].
    right. right. split; [lia|]. now exists g.
  - destruct (round_at samples k g) as (b & g' & Hrej & Hround);
      [unfold MAX_SAMPLE_SIZE, INITAL_SAMPLE_SIZE; lia|].
    rewrite Hround. destruct b.
    + eexists. split; [reflexivity|].
      left. exists k, g, g'. eexists. split; [lia|]. split; [exact Hrej|reflexivity].
    + rewrite H1, H2.
      destruct (Z.ltb_spec (Z.of_nat (4 + k)) N) as [Hlt|Hge]; simpl.
      * destruct (IH (S k) g' fuel) as (t & Ht & Hcases); [lia | lia | lia |].
        exists t. split; [exact Ht|].
        destruct Hcases as [(i & g1 & g2 & d & Hi & Hr & Hd)|Hrest];
          [|right; exact Hrest].
        left. exists i, g1, g2, d. split; [lia|]. now split.
      * eexists. split; [reflexivity|].
        right. left. split; [lia|]. f_equal. lia.
Qed.

(** A run on backlogs of [N >= MAX_SAMPLE_SIZE] observations each. *)
Lemma run_cases (samples : list fp_t * list fp_t) (N : Z) (g : rng) :
  size (fst samples) = N -> size (snd samples) = N -> MAX_SAMPLE_SIZE <= N ->
  exists t,
    run samples g = Some t
    /\ ((exists i g1 g2 d,
           (i <= 56)%nat
           /\ rejected (firstn (4 + i) (fst samples))
                       (firstn (4 + i) (snd samples)) g1 = Returns (true, g2)
           /\ t = Rejected d)
        \/ (N = MAX_SAMPLE_SIZE /\ t = Crash AssertionFailure 57)
        \/ (MAX_SAMPLE_SIZE < N
            /\ exists g', t = Exhausted (driver_at samples 57 g'))).
Proof.
  intros H1 H2 HN. unfold run.
  rewrite startup_returns
    by (unfold MAX_SAMPLE_SIZE, INITAL_SAMPLE_SIZE in *; lia).
  destruct (while_loop_from samples N H1 H2 HN 57 0 g rounds_bound)
    as (t & Ht & Hcases).
  - reflexivity.
  - unfold MAX_SAMPLE_SIZE, INITAL_SAMPLE_SIZE in *. lia.
  - unfold rounds_bound, MAX_SAMPLE_SIZE, INITAL_SAMPLE_SIZE. lia.
  - exists t. split; [exact Ht|].
    destruct Hcases as [(i & g1 & g2 & d & Hi & Hr & Hd)|Hrest];
      [|right; exact Hrest].
    left. exists i, g1, g2, d. split; [lia|]. now split.
Qed.

(** With exactly [MAX_SAMPLE_SIZE] observations per group no run ends with
    exit status 0. *)
Lemma run_sixty_never_exhausted (samples : list fp_t * list fp_t) (g : rng) :
  size (fst samples) = MAX_SAMPLE_SIZE ->
  size (snd samples) = MAX_SAMPLE_SIZE ->
  exists t, run samples g = Some t /\ exit_status t <> Some 0.
Proof.
  intros H1 H2.
  destruct (run_cases samples MAX_SAMPLE_SIZE g H1 H2 ltac:(lia))
    as (t & Ht & [(i & g1 & g2 & d & _ & _ & ->)|[[_ ->]|[Hlt _]]]).
  - exists (Rejected d). split; [exact Ht | discriminate].
  - exists (Crash AssertionFailure 57). split; [exact Ht | discriminate].
  - lia.
Qed.

(** A round that does not end the run advances [current] by one. *)
Lemma round_advances (d d' : driver) :
  0 <= current d -> round d = inl d' -> current d' = current d + 1.
Proof.
  intros H0. unfold round.
  destruct (Z.leb_spec (current d) MAX_SAMPLE_SIZE) as [Hle|]; [|discriminate].
  destruct (rejected (x d) (y d) (gen d)) as [[[|] g']|f]; try discriminate.
  destruct (readSamples (first d) 1) as [[r1 first']|f]; [|discriminate].
  cbn [bind]. destruct (front r1) as [v1|f]; [|discriminate].
  cbn [bind]. destruct (readSamples (second d) 1) as [[r2 second']|f];
    [|discriminate].
  cbn [bind]. destruct (front r2) as [v2|f]; [|discriminate].
  cbn [bind]. intros [= <-]. cbn [current].
  unfold wrap32, MAX_SAMPLE_SIZE in *. apply Z.mod_small. lia.
Qed.

(** The loop ends within [MAX_SAMPLE_SIZE + 1 - current] rounds and one more
    evaluation of its condition. *)
Lemma while_loop_terminates (n : nat) :
  forall (d : driver) (fuel : nat),
    0 <= current d -> MAX_SAMPLE_SIZE + 1 - current d <= Z.of_nat n ->
    (n < fuel)%nat ->
    exists t, while_loop fuel d = Some t.
Proof.
  induction n as [|n IH]; intros d fuel H0 Hn Hfuel;
    (destruct fuel as [|fuel]; [lia|]); simpl.
  - unfold round. replace (current d <=? MAX_SAMPLE_SIZE) with false
      by (symmetry; apply Z.leb_gt; lia).
    eauto.
  - destruct (round d) as [d'|t] eqn:E; [|eauto].
    apply round_advances in E; [|exact H0].
    apply IH; lia.
Qed.

(** The program terminates on every input. *)
Lemma main_terminates (input : stdin) (g : rng) :
  exists t, main input g = Some t.
Proof.
  unfold main. destruct (parseInput input) as [samples|f]; [|eauto].
  unfold run. destruct (startup samples g) as [d|f] eqn:E; [|eauto].
  apply while_loop_terminates with (n := 57%nat).
  - unfold startup in E.
    destruct (assert _); [|discriminate]. cbn [bind] in E.
    destruct (readSamples (fst samples) _) as [[x0 first']|]; [|discriminate].
    cbn [bind] in E.
    destruct (readSamples (snd samples) _) as [[y0 second']|]; [|discriminate].
    cbn [bind] in E. injection E as <-. discriminate.
  - assert (Hc : current d = INITAL_SAMPLE_SIZE).
    { unfold startup in E.
      destruct (assert _); [|discriminate]. cbn [bind] in E.
      destruct (readSamples (fst samples) _) as [[x0 first']|]; [|discriminate].
      cbn [bind] in E.
      destruct (readSamples (snd samples) _) as [[y0 second']|]; [|discriminate].
      cbn [bind] in E. now injection E as <-. }
    rewrite Hc. unfold MAX_SAMPLE_SIZE, INITAL_SAMPLE_SIZE. lia.
  - unfold rounds_bound, MAX_SAMPLE_SIZE, INITAL_SAMPLE_SIZE. lia.
Qed.

End Runs.

(* ------------------------------------------------------------------ *)
(** ** Replicate sets whose elements are all the same *)

Lemma insert_repeat (c : fp_t) (k : nat) :
  (c <? c)%float = false -> insert c (repeat c k) = c :: repeat c k.
Proof. intros H. destruct k; simpl; [reflexivity | now rewrite H]. Qed.

Lemma sort_repeat (c : fp_t) (k : nat) :
  (c <? c)%float = false -> sort (repeat c k) = repeat c k.
Proof.
  intros H. induction k as [|k IH]; simpl; [reflexivity|].
  rewrite IH. now apply insert_repeat.
Qed.

Lemma firstn_repeat (c : fp_t) (k n : nat) :
  (k <= n)%nat -> firstn k (repeat c n) = repeat c k.
Proof.
  revert n. induction k as [|k IH]; intros n H; [reflexivity|].
  destruct n as [|n]; [lia|]. simpl. rewrite IH by lia. reflexivity.
Qed.

Lemma getInterval_repeat (c : fp_t) :
  getInterval (repeat c (Z.to_nat BOOTSTRAP_SAMPLES)) SIGNIFICANCE_ALPHA
  = Returns (c, c).
Proof.
  destruct (getInterval_bootstrap (repeat c (Z.to_nat BOOTSTRAP_SAMPLES)))
    as (lower & upper & Hl & Hu & Hint).
  { unfold size. rewrite repeat_length. reflexivity. }
  rewrite nth_error_repeat in Hl by (unfold BOOTSTRAP_SAMPLES; lia).
  rewrite nth_error_repeat in Hu by (unfold BOOTSTRAP_SAMPLES; lia).
  congruence.
Qed.

Section ConstantReplicates.

Context {R : RandomSource}.

(** If from every generator state satisfying [I] a round of resampling
    yields the replicate [c] and leaves a state satisfying [I], the loop
    collects [c] alone. *)
Lemma bootstrap_constant (x y : list fp_t) (c : fp_t) (I : rng -> Prop) :
  (forall g, I g ->
     exists xs g1 ys g2,
       sample x (wrap32 (size x)) g = Returns (xs, g1)
       /\ sample y (wrap32 (size y)) g1 = Returns (ys, g2)
       /\ (average xs - average ys)%float = c
       /\ I g2) ->
  forall (k : nat) (bootStrapped : list fp_t) (g : rng),
    I g ->
    exists g',
      bootstrap_loop k x y bootStrapped g
      = Returns (bootStrapped ++ repeat c k, g')
      /\ I g'.
Proof.
  intros Hround. induction k as [|k IH]; intros acc g Hg; simpl.
  - exists g. now rewrite app_nil_r.
  - destruct (Hround g Hg) as (xs & g1 & ys & g2 & Hx & Hy & Hc & Hg2).
    rewrite Hx. simpl. rewrite Hy. simpl. rewrite Hc.
    destruct (IH (acc ++ [c]) g2 Hg2) as (g' & Hrun & Hg').
    exists g'. split; [|exact Hg'].
    rewrite Hrun, <- app_assoc. reflexivity.
Qed.

Lemma rejected_constant (x y : list fp_t) (c : fp_t) (g g' : rng) :
  bootstrap_loop (Z.to_nat BOOTSTRAP_SAMPLES) x y [] g
  = Returns (repeat c (Z.to_nat BOOTSTRAP_SAMPLES), g') ->
  (c <? c)%float = false ->
  rejected x y g = Returns ((0 <? c)%float || (c <? 0)%float, g').
Proof.
  intros Hrun Hc. unfold rejected. rewrite Hrun. cbn [bind].
  rewrite sort_repeat by exact Hc.
  rewrite getInterval_repeat. reflexivity.
Qed.

(** *** Groups of zeros *)

Lemma fold_zeros (n : nat) :
  fold_left (fun acc val => (acc + val)%float) (repeat 0%float n) 0%float
  = 0%float.
Proof. induction n as [|n IH]; simpl; [reflexivity | exact IH]. Qed.

Lemma zero_div_size (n : nat) :
  (1 <= n <= 61)%nat -> (0 / size_to_fp (Z.of_nat n))%float = 0%float.
Proof.
  intros Hn.
  assert (H : forallb (fun k => PrimFloat.Leibniz.eqb
                                  (0 / size_to_fp (Z.of_nat k))%float 0%float)
                      (seq 1 61) = true) by (vm_compute; reflexivity).
  rewrite forallb_forall in H.
  apply FloatAxioms.Leibniz.eqb_spec. apply H. apply in_seq. lia.
Qed.

Lemma average_zeros (n : nat) :
  (1 <= n <= 61)%nat -> average (repeat 0%float n) = 0%float.
Proof.
  intros Hn. unfold average. cbv zeta.
  unfold size. rewrite repeat_length.
  transitivity (0 / size_to_fp (Z.of_nat n))%float;
    [f_equal; apply fold_zeros | now apply zero_div_size].
Qed.

Lemma sample_zeros (n : nat) (g : rng) :
  (1 <= n <= 61)%nat ->
  exists g',
    sample (repeat 0%float n) (wrap32 (size (repeat 0%float n))) g
    = Returns (repeat 0%float n, g').
Proof.
  intros Hn.
  destruct (sample_returns (repeat 0%float n)
              (wrap32 (size (repeat 0%float n))) g)
    as (r & g' & Hs & Hlen & Hin).
  { left. destruct n; [lia | simpl; discriminate]. }
  exists g'. rewrite Hs. do 2 f_equal.
  assert (Hall : Forall (eq 0%float) r).
  { apply Forall_impl with (P := fun e => In e (repeat 0%float n));
      [|exact Hin].
    intros e He. symmetry. exact (repeat_spec n 0%float e He). }
  apply Forall_eq_repeat in Hall. rewrite Hall. f_equal.
  rewrite Hlen. unfold size, wrap32. rewrite repeat_length.
  rewrite Z.mod_small by lia. lia.
Qed.

(** On two groups of [n] zeros each the tester does not reject, whatever
    the generator state. *)
Lemma rejected_zeros (n : nat) (g : rng) :
  (1 <= n <= 61)%nat ->
  exists g',
    rejected (repeat 0%float n) (repeat 0%float n) g = Returns (false, g').
Proof.
  intros Hn.
  destruct (bootstrap_constant (repeat 0%float n) (repeat 0%float n) 0%float
              (fun _ => True)) with (k := Z.to_nat BOOTSTRAP_SAMPLES)
              (bootStrapped := @nil fp_t) (g := g)
    as (g' & Hrun & _); [|exact Logic.I|].
  - intros g0 _.
    destruct (sample_zeros n g0 Hn) as (g1 & H1).
    destruct (sample_zeros n g1 Hn) as (g2 & H2).
    exists (repeat 0%float n), g1, (repeat 0%float n), g2.
    rewrite (average_zeros n Hn). repeat split; assumption.
  - exists g'. simpl app in Hrun.
    exact (rejected_constant _ _ 0%float g g' Hrun eq_refl).
Qed.

(** *** Empty groups *)

(** The NaN that [average] returns on an empty group travels on: every
    replicate is NaN, so are both bounds, and the tester returns false. *)
Lemma rejected_empty (g : rng) :
  exists g', rejected [] [] g = Returns (false, g').
Proof.
  destruct (bootstrap_constant [] [] nan (fun _ => True))
    with (k := Z.to_nat BOOTSTRAP_SAMPLES) (bootStrapped := @nil fp_t) (g := g)
    as (g' & Hrun & _); [|exact Logic.I|].
  - intros g0 _. exists [], g0, [], g0. repeat split.
  - exists g'. cbn [app] in Hrun.
    exact (rejected_constant _ _ nan g g' Hrun eq_refl).
Qed.

End ConstantReplicates.

(* ------------------------------------------------------------------ *)
(** ** Runs at the sample budget *)

Section Budget.

Context {R : RandomSource}.

Lemma never_rejected_zeros (N i : nat) (g1 g2 : rng) :
  (4 + i <= N)%nat -> (i <= 56)%nat ->
  rejected (firstn (4 + i) (repeat 0%float N))
           (firstn (4 + i) (repeat 0%float N)) g1
  <> Returns (true, g2).
Proof.
  intros HN Hi. rewrite firstn_repeat by exact HN.
  destruct (rejected_zeros (4 + i) g1 ltac:(lia)) as (g' & Hr).
  rewrite Hr. discriminate.
Qed.

(** C1, at a failing input: 60 observations per group, all zero.  The tester
    rejects at no round, whatever the generator state; after the 57th test
    ([current = 60]) the backlog is empty, the next read fails its assertion
    and the process aborts instead of exiting with status 0. *)
Theorem main_sixty_zeros_aborts (g : rng) :
  parseInput (zeros_input "60")
  = Returns (repeat 0%float 60, repeat 0%float 60)
  /\ main (zeros_input "60") g = Some (Crash AssertionFailure 57).
Proof.
  assert (Hp : parseInput (zeros_input "60")
               = Returns (repeat 0%float 60, repeat 0%float 60))
    by reflexivity.
  split; [exact Hp|].
  unfold main. rewrite Hp.
  destruct (run_cases (repeat 0%float 60, repeat 0%float 60) 60 g)
    as (t & Ht & [(i & g1 & g2 & d & Hi & Hr & _)|[[_ ->]|[Hlt _]]]);
    try reflexivity.
  - exfalso. revert Hr. apply never_rejected_zeros; lia.
  - exact Ht.
  - unfold MAX_SAMPLE_SIZE in Hlt. lia.
Qed.

(** C3, at a failing input: 61 observations per group, all zero.  The loop
    runs to its end and leaves both groups with 61 elements, one more than
    [MAX_SAMPLE_SIZE]. *)
Theorem main_sixtyone_zeros_outgrows (g : rng) :
  exists d,
    main (zeros_input "61") g = Some (Exhausted d)
    /\ size (x d) = 61 /\ size (y d) = 61
    /\ MAX_SAMPLE_SIZE < size (x d) /\ MAX_SAMPLE_SIZE < size (y d).
Proof.
  assert (Hp : parseInput (zeros_input "61")
               = Returns (repeat 0%float 61, repeat 0%float 61))
    by reflexivity.
  unfold main. rewrite Hp.
  destruct (run_cases (repeat 0%float 61, repeat 0%float 61) 61 g)
    as (t & Ht & [(i & g1 & g2 & d & Hi & Hr & _)|[[HN _]|[_ [g' ->]]]]);
    try reflexivity.
  - unfold MAX_SAMPLE_SIZE. lia.
  - exfalso. revert Hr. apply never_rejected_zeros; lia.
  - discriminate HN.
  - eexists. split; [exact Ht|].
    repeat split; reflexivity.
Qed.

End Budget.

Lemma main_insufficient_data_witness :
  let input := {| lines := ["# two observations per group"%string; "2"%string];
                  numbers := fun _ => 1%float |} in
  let samples := ([1; 1]%float, [1; 1]%float) in
  parseInput input = Returns samples
  /\ (size (fst samples) < MAX_SAMPLE_SIZE \/ size (snd samples) < MAX_SAMPLE_SIZE)
  /\ @startup block_source samples 0 = Fails AssertionFailure
  /\ @main block_source input 0 = Some (Crash AssertionFailure 0).
Proof.
  intros input samples.
  assert (Hp : parseInput input = Returns samples) by reflexivity.
  assert (Hs : size (fst samples) < MAX_SAMPLE_SIZE
               \/ size (snd samples) < MAX_SAMPLE_SIZE) by (left; reflexivity).
  split; [exact Hp|]. split; [exact Hs|].
  exact (@main_insufficient_data block_source input 0 samples Hp Hs).
Defined.

(* ------------------------------------------------------------------ *)
(** ** Signs of doubles *)

Lemma Prim2SF_zero : Prim2SF 0%float = S754_zero false.
Proof. reflexivity. Qed.

Lemma ltb_zero_sign (d : fp_t) :
  (d <? 0)%float = match sign_of d with Negative => true | _ => false end.
Proof.
  rewrite ltb_spec, Prim2SF_zero. unfold sign_of.
  destruct (Prim2SF d) as [s|s| |s m e]; try destruct s; reflexivity.
Qed.

Lemma zero_ltb_sign (d : fp_t) :
  (0 <? d)%float = match sign_of d with Positive => true | _ => false end.
Proof.
  rewrite ltb_spec, Prim2SF_zero. unfold sign_of.
  destruct (Prim2SF d) as [s|s| |s m e]; try destruct s; reflexivity.
Qed.

Lemma SFeqb_refl (f : spec_float) :
  SFeqb f f = match f with S754_nan => false | _ => true end.
Proof.
  unfold SFeqb, SFcompare.
  destruct f as [s|s| |s m e]; try destruct s; try reflexivity.
  - now rewrite Z.compare_refl, Pos.compare_cont_refl.
  - now rewrite Z.compare_refl, Pos.compare_cont_refl.
Qed.

Lemma is_nan_sign (d : fp_t) :
  is_nan d = match sign_of d with NotANumber => true | _ => false end.
Proof.
  unfold is_nan, sign_of. rewrite eqb_spec, SFeqb_refl.
  destruct (Prim2SF d) as [s|s| |s m e]; try destruct s; reflexivity.
Qed.

(** Rounding treats the sign as a label. *)
Lemma binary_round_sign (s : bool) (m : positive) (e : Z) :
  sf_sign (binary_round prec emax (negb s) m e)
  = flip (sf_sign (binary_round prec emax s m e)).
Proof.
  unfold binary_round.
  destruct (shl_align m e _) as [mz ez].
  unfold binary_round_aux.
  destruct (shr_fexp prec emax (Z.pos mz) ez loc_Exact) as [mrs' e'].
  destruct (shr_fexp prec emax _ e' loc_Exact) as [mrs'' e''].
  destruct (shr_m mrs''); [destruct s; reflexivity | | reflexivity].
  destruct (e'' <=? emax - prec); destruct s; reflexivity.
Qed.

Lemma binary_normalize_opp (z e : Z) :
  sf_sign (binary_normalize prec emax (- z) e false)
  = flip (sf_sign (binary_normalize prec emax z e false)).
Proof.
  destruct z as [|m|m]; simpl.
  - reflexivity.
  - exact (binary_round_sign false m e).
  - exact (binary_round_sign true m e).
Qed.

(** Exchanging the operands of a subtraction flips the sign of the result. *)
Lemma SFsub_sign (a b : spec_float) :
  sf_sign (SF64sub b a) = flip (sf_sign (SF64sub a b)).
Proof.
  unfold SF64sub, SFsub.
  destruct a as [sa|sa| |sa ma ea], b as [sb|sb| |sb mb eb];
    try (destruct sa, sb; reflexivity);
    try (destruct sa; reflexivity);
    try (destruct sb; reflexivity);
    try reflexivity.
  cbv zeta. rewrite (Z.min_comm eb ea).
  rewrite <- binary_normalize_opp.
  change (IntDef.Z.min ea eb) with (Z.min ea eb).
  do 2 f_equal. lia.
Qed.

Lemma sub_sign (a b : fp_t) : sign_of (b - a) = flip (sign_of (a - b)).
Proof. unfold sign_of. rewrite !sub_spec. apply SFsub_sign. Qed.

(* ------------------------------------------------------------------ *)
(** ** The order of doubles *)

Lemma lex_opp (e : Z) (m : positive) (e' : Z) (m' : positive) :
  match e ?= e' with
  | Lt => Gt
  | Gt => Lt
  | Eq => CompOpp (Pos.compare_cont Eq m m')
  end = CompOpp (lex e m e' m').
Proof. unfold lex. destruct (e ?= e'); reflexivity. Qed.

Lemma lex_not_gt (e : Z) (m : positive) (e' : Z) (m' : positive) :
  lex e m e' m' <> Gt <-> e < e' \/ (e = e' /\ (m <= m')%positive).
Proof.
  unfold lex. change (Pos.compare_cont Eq m m') with (m ?= m')%positive.
  destruct (Z.compare_spec e e') as [E|E|E].
  - unfold Pos.le. intuition lia.
  - intuition (try lia; try discriminate).
  - intuition (try lia; try congruence).
Qed.

Lemma lex_not_lt (e : Z) (m : positive) (e' : Z) (m' : positive) :
  lex e m e' m' <> Lt <-> e' < e \/ (e = e' /\ (m' <= m)%positive).
Proof.
  unfold lex. change (Pos.compare_cont Eq m m') with (m ?= m')%positive.
  destruct (Z.compare_spec e e') as [E|E|E].
  - rewrite <- Pos.compare_ge_iff. unfold Pos.ge. intuition lia.
  - intuition (try lia; try congruence).
  - intuition (try lia; try discriminate).
Qed.

Lemma le_of_comparison (c : comparison) :
  match c with Lt | Eq => true | Gt => false end = true <-> c <> Gt.
Proof. destruct c; intuition congruence. Qed.

Lemma le_of_CompOpp (c : comparison) :
  match CompOpp c with Lt | Eq => true | Gt => false end = true <-> c <> Lt.
Proof. destruct c; simpl; intuition congruence. Qed.

Lemma SFleb_trans (a b c : spec_float) :
  SFleb a b = true -> SFleb b c = true -> SFleb a c = true.
Proof.
  unfold SFleb, SFcompare.
  destruct a as [sa|sa| |sa ma ea], b as [sb|sb| |sb mb eb],
           c as [sc|sc| |sc mc ec];
    try destruct sa; try destruct sb; try destruct sc;
    try reflexivity; try discriminate.
  - rewrite !lex_opp, !le_of_CompOpp, !lex_not_lt. lia.
  - fold (lex ea ma eb mb) (lex eb mb ec mc) (lex ea ma ec mc).
    rewrite !le_of_comparison, !lex_not_gt. lia.
Qed.

Lemma SFltb_leb (a b : spec_float) : SFltb a b = true -> SFleb a b = true.
Proof. unfold SFltb, SFleb. destruct (SFcompare a b) as [[]|]; auto. Qed.

Lemma SFcompare_antisym (a b : spec_float) :
  SFcompare b a = option_map CompOpp (SFcompare a b).
Proof.
  unfold SFcompare.
  destruct a as [sa|sa| |sa ma ea], b as [sb|sb| |sb mb eb];
    try destruct sa; try destruct sb; try reflexivity; simpl.
  - rewrite (Z.compare_antisym ea eb).
    change (Pos.compare_cont Eq) with Pos.compare.
    rewrite (Pos.compare_antisym ma mb).
    destruct (ea ?= eb); simpl; try reflexivity;
      now rewrite CompOpp_involutive.
  - rewrite (Z.compare_antisym ea eb).
    change (Pos.compare_cont Eq) with Pos.compare.
    rewrite (Pos.compare_antisym ma mb).
    destruct (ea ?= eb); simpl; try reflexivity;
      now rewrite CompOpp_involutive.
Qed.

Lemma SFltb_false_leb (a b : spec_float) :
  a <> S754_nan -> b <> S754_nan -> SFltb a b = false -> SFleb b a = true.
Proof.
  intros Ha Hb. unfold SFltb, SFleb. rewrite (SFcompare_antisym a b).
  destruct (SFcompare a b) as [[]|] eqn:E; try reflexivity; try discriminate.
  intros _. exfalso. unfold SFcompare in E.
  destruct a, b; try discriminate; congruence.
Qed.

Lemma SFleb_rank (a b : spec_float) :
  SFleb a b = true -> (rank (sf_sign a) <= rank (sf_sign b))%nat.
Proof.
  unfold SFleb, SFcompare.
  destruct a as [sa|sa| |sa ma ea], b as [sb|sb| |sb mb eb];
    try destruct sa; try destruct sb; simpl; intros H;
    try discriminate; lia.
Qed.

Lemma not_nan_spec (d : fp_t) : is_nan d = false -> Prim2SF d <> S754_nan.
Proof.
  rewrite is_nan_sign. unfold sign_of. intros H E. rewrite E in H. discriminate.
Qed.

Lemma leb_trans (a b c : fp_t) :
  (a <=? b)%float = true -> (b <=? c)%float = true -> (a <=? c)%float = true.
Proof. rewrite !leb_spec. apply SFleb_trans. Qed.

Lemma ltb_leb (a b : fp_t) : (a <? b)%float = true -> (a <=? b)%float = true.
Proof. rewrite ltb_spec, leb_spec. apply SFltb_leb. Qed.

Lemma ltb_false_leb (a b : fp_t) :
  is_nan a = false -> is_nan b = false ->
  (a <? b)%float = false -> (b <=? a)%float = true.
Proof.
  intros Ha Hb. rewrite ltb_spec, leb_spec.
  apply SFltb_false_leb; now apply not_nan_spec.
Qed.

Lemma leb_sign_le (a b : fp_t) : (a <=? b)%float = true -> sign_le a b.
Proof. rewrite leb_spec. apply SFleb_rank. Qed.

(* ------------------------------------------------------------------ *)
(** ** Sorted replicate sets *)

Lemma insert_Forall (P : fp_t -> Prop) (a : fp_t) (l : list fp_t) :
  P a -> Forall P l -> Forall P (insert a l).
Proof.
  intros Ha Hl. induction Hl as [|b l Hb Hl IH]; simpl.
  - constructor; [exact Ha | constructor].
  - destruct (b <? a)%float; repeat constructor; assumption.
Qed.

Lemma sort_Forall (P : fp_t -> Prop) (l : list fp_t) :
  Forall P l -> Forall P (sort l).
Proof.
  induction 1 as [|a l Ha Hl IH]; simpl; [constructor|].
  now apply insert_Forall.
Qed.

Lemma insert_count (f : fp_t -> bool) (a : fp_t) (l : list fp_t) :
  length (filter f (insert a l)) = length (filter f (a :: l)).
Proof.
  induction l as [|b l IH]; [reflexivity|].
  simpl insert. destruct (b <? a)%float; [|reflexivity].
  simpl in *. destruct (f b), (f a); simpl in *; lia.
Qed.

Lemma sort_count (f : fp_t -> bool) (l : list fp_t) :
  length (filter f (sort l)) = length (filter f l).
Proof.
  induction l as [|a l IH]; [reflexivity|].
  simpl sort. rewrite insert_count. simpl. destruct (f a); simpl; lia.
Qed.

Lemma insert_ascending (a : fp_t) (l : list fp_t) :
  is_nan a = false -> no_nan l -> ascending l -> ascending (insert a l).
Proof.
  unfold ascending. intros Ha Hl Hs. induction Hs as [|b l Hs IH Hb]; simpl.
  - repeat constructor.
  - inversion Hl as [|b' l' Hnb Hl']; subst.
    destruct (b <? a)%float eqn:E.
    + constructor; [now apply IH|].
      apply insert_Forall; [|exact Hb].
      now apply ltb_leb.
    + assert (Hab : (a <=? b)%float = true) by (now apply ltb_false_leb).
      constructor; [now constructor|].
      constructor; [exact Hab|].
      eapply Forall_impl; [|exact Hb].
      intros c Hc. now apply leb_trans with b.
Qed.

(** [sort] sorts: without NaN the result is ascending, and it is always a
    rearrangement of the input. *)
Lemma sort_ascending (l : list fp_t) : no_nan l -> ascending (sort l).
Proof.
  induction 1 as [|a l Ha Hl IH]; simpl; [constructor|].
  apply insert_ascending; [exact Ha | now apply sort_Forall | exact IH].
Qed.

Lemma insert_permutation (a : fp_t) (l : list fp_t) :
  Permutation (a :: l) (insert a l).
Proof.
  induction l as [|b l IH]; simpl; [reflexivity|].
  destruct (b <? a)%float; [|reflexivity].
  rewrite perm_swap. now constructor.
Qed.

Lemma sort_permutation (l : list fp_t) : Permutation l (sort l).
Proof.
  induction l as [|a l IH]; simpl; [constructor|].
  rewrite <- insert_permutation. now constructor.
Qed.

(** An ascending sequence runs through the signs in order: negative, zero,
    positive. *)
Lemma ascending_signs (l : list fp_t) :
  ascending l -> StronglySorted sign_le l.
Proof.
  induction 1 as [|a l Hs IH Ha]; constructor; [exact IH|].
  eapply Forall_impl; [|exact Ha]. intros b. apply leb_sign_le.
Qed.

Lemma sort_sorted (l : list fp_t) :
  no_nan l -> StronglySorted sign_le (sort l).
Proof. intros H. apply ascending_signs. now apply sort_ascending. Qed.

Lemma none_below (a : fp_t) (l : list fp_t) :
  (a <? 0)%float = false -> is_nan a = false ->
  Forall (sign_le a) l -> no_nan l -> count_below l = 0%nat.
Proof.
  intros Ha Hn Hl Hnan. unfold count_below.
  induction Hl as [|b l Hb Hl IH]; [reflexivity|].
  inversion Hnan as [|b' l' Hnb Hnl]; subst. simpl.
  replace (b <? 0)%float with false; [now apply IH|].
  rewrite ltb_zero_sign in *. rewrite is_nan_sign in *. unfold sign_le in Hb.
  destruct (sign_of a), (sign_of b); simpl in *; try discriminate; try reflexivity; lia.
Qed.

Lemma all_above (a : fp_t) (l : list fp_t) :
  (0 <? a)%float = true ->
  Forall (sign_le a) l -> no_nan l ->
  Forall (fun d => (0 <? d)%float = true) l.
Proof.
  intros Ha Hl Hnan.
  induction Hl as [|b l Hb Hl IH]; [constructor|].
  inversion Hnan as [|b' l' Hnb Hnl]; subst.
  constructor; [|now apply IH].
  rewrite zero_ltb_sign in *. rewrite is_nan_sign in *. unfold sign_le in Hb.
  destruct (sign_of a), (sign_of b); simpl in *; try discriminate; try reflexivity; lia.
Qed.

Lemma count_above_all (l : list fp_t) :
  Forall (fun d => (0 <? d)%float = true) l -> count_above l = length l.
Proof.
  unfold count_above. induction 1 as [|b l Hb Hl IH]; [reflexivity|].
  simpl. rewrite Hb. simpl. now rewrite IH.
Qed.

Lemma count_above_le (l : list fp_t) : (count_above l <= length l)%nat.
Proof. apply filter_length_le. Qed.

(** In a sorted replicate set the element at position [i] is below zero
    exactly when more than [i] replicates are. *)
Lemma sorted_below (s : list fp_t) :
  StronglySorted sign_le s -> no_nan s ->
  forall (i : nat) (v : fp_t),
    nth_error s i = Some v ->
    (v <? 0)%float = (i <? count_below s)%nat.
Proof.
  induction 1 as [|a s Hs IH Ha]; intros Hnan i v Hv.
  - destruct i; discriminate.
  - inversion Hnan as [|a' s' Hna Hns]; subst.
    unfold count_below in *. simpl filter.
    destruct (a <? 0)%float eqn:E.
    + destruct i as [|i]; simpl in *.
      * now injection Hv as <-.
      * now apply IH.
    + pose proof (none_below a s E Hna Ha Hns) as H0.
      unfold count_below in H0. rewrite H0.
      destruct i as [|i]; simpl in *.
      * now injection Hv as <-.
      * rewrite (IH Hns i v Hv), H0. reflexivity.
Qed.

(** ... and above zero exactly when the replicates above zero reach back to
    position [i]. *)
Lemma sorted_above (s : list fp_t) :
  StronglySorted sign_le s -> no_nan s ->
  forall (i : nat) (v : fp_t),
    nth_error s i = Some v ->
    (0 <? v)%float = (length s <=? i + count_above s)%nat.
Proof.
  induction 1 as [|a s Hs IH Ha]; intros Hnan i v Hv.
  - destruct i; discriminate.
  - inversion Hnan as [|a' s' Hna Hns]; subst.
    destruct (0 <? a)%float eqn:E.
    + pose proof (all_above a s E Ha Hns) as Hall.
      assert (Hall' : Forall (fun d => (0 <? d)%float = true) (a :: s))
        by (now constructor).
      rewrite (count_above_all _ Hall').
      replace (length (a :: s) <=? i + length (a :: s))%nat with true
        by (symmetry; apply Nat.leb_le; lia).
      apply nth_error_In in Hv.
      rewrite Forall_forall in Hall'. now apply Hall'.
    + assert (Hc : count_above (a :: s) = count_above s).
      { unfold count_above. simpl. now rewrite E. }
      rewrite Hc. pose proof (count_above_le s).
      destruct i as [|i]; simpl in Hv.
      * injection Hv as <-. rewrite E. symmetry. apply Nat.leb_gt. simpl. lia.
      * rewrite (IH Hns i v Hv). simpl length.
        destruct (Nat.leb_spec (length s) (i + count_above s));
          symmetry; [apply Nat.leb_le | apply Nat.leb_gt]; lia.
Qed.

(** The two bounds of the interval, read off the counts. *)
Lemma interval_counts (reps : list fp_t) :
  size reps = BOOTSTRAP_SAMPLES -> no_nan reps ->
  exists lower upper,
    getInterval (sort reps) SIGNIFICANCE_ALPHA = Returns (lower, upper)
    /\ (0 <? lower)%float
       = (Z.to_nat BOOTSTRAP_SAMPLES <=? Z.to_nat 49 + count_above reps)%nat
    /\ (upper <? 0)%float = (Z.to_nat 9950 <? count_below reps)%nat.
Proof.
  intros Hsize Hnan.
  destruct (getInterval_bootstrap (sort reps))
    as (lower & upper & Hl & Hu & Hint).
  { now rewrite sort_size. }
  exists lower, upper. split; [exact Hint|].
  pose proof (sort_sorted reps Hnan) as Hsorted.
  pose proof (sort_Forall _ reps Hnan) as Hnan'.
  rewrite (sorted_above _ Hsorted Hnan' _ _ Hl).
  rewrite (sorted_below _ Hsorted Hnan' _ _ Hu).
  unfold count_above, count_below. rewrite !sort_count, sort_length.
  unfold size in Hsize. rewrite <- Hsize, Nat2Z.id. split; reflexivity.
Qed.

Lemma flipped_counts (reps reps' : list fp_t) :
  Forall2 (fun r r' => sign_of r' = flip (sign_of r)) reps reps' ->
  count_above reps' = count_below reps
  /\ count_below reps' = count_above reps
  /\ (no_nan reps -> no_nan reps').
Proof.
  unfold count_above, count_below, no_nan.
  induction 1 as [|r r' reps reps' Hr Hreps (IH1 & IH2 & IH3)].
  - repeat split. constructor.
  - simpl. rewrite !zero_ltb_sign, !ltb_zero_sign, Hr.
    repeat split.
    + destruct (sign_of r); simpl; congruence.
    + destruct (sign_of r); simpl; congruence.
    + intros Hn. inversion Hn as [|a l Ha Hl]; subst.
      constructor; [|now apply IH3].
      rewrite is_nan_sign in *. rewrite Hr.
      destruct (sign_of r); simpl in *; congruence.
Qed.

(* ------------------------------------------------------------------ *)
(** ** Exchanging the two groups *)

(** Positions 49 and 9950 mirror each other in a set of 10000: either bound
    lies beyond zero exactly when at least 9951 replicates do. *)
Lemma symmetric_positions (c : nat) :
  (Z.to_nat BOOTSTRAP_SAMPLES <=? Z.to_nat 49 + c)%nat
  = (Z.to_nat 9950 <? c)%nat.
Proof.
  unfold BOOTSTRAP_SAMPLES.
  destruct (Nat.leb_spec (Z.to_nat 10000) (Z.to_nat 49 + c));
    destruct (Nat.ltb_spec (Z.to_nat 9950) c); try reflexivity; lia.
Qed.

Lemma difference_exchange (p : list fp_t * list fp_t) :
  sign_of (difference (exchange p)) = flip (sign_of (difference p)).
Proof. unfold difference, exchange. simpl. apply sub_sign. Qed.

Section Exchange.

Context {R : RandomSource}.

Lemma bootstrap_loop_resamples (x y : list fp_t) :
  forall (k : nat) (bootStrapped : list fp_t) (g : rng),
    bootstrap_loop k x y bootStrapped g
    = ('(pairs, g') <- resample_rounds k x y g ;;
       Returns (bootStrapped ++ map difference pairs, g')).
Proof.
  induction k as [|k IH]; intros acc g; simpl.
  - now rewrite app_nil_r.
  - destruct (sample x (wrap32 (size x)) g) as [[xs g1]|f]; [|reflexivity].
    simpl.
    destruct (sample y (wrap32 (size y)) g1) as [[ys g2]|f]; [|reflexivity].
    simpl. rewrite IH.
    destruct (resample_rounds k x y g2) as [[rest g']|f]; [|reflexivity].
    simpl. now rewrite <- app_assoc.
Qed.

Lemma resample_rounds_length (x y : list fp_t) :
  forall (k : nat) (g g' : rng) (pairs : list (list fp_t * list fp_t)),
    resample_rounds k x y g = Returns (pairs, g') -> length pairs = k.
Proof.
  induction k as [|k IH]; intros g g' pairs; simpl.
  - now intros [= <- _].
  - destruct (sample x (wrap32 (size x)) g) as [[xs g1]|f]; [|discriminate].
    simpl.
    destruct (sample y (wrap32 (size y)) g1) as [[ys g2]|f]; [|discriminate].
    simpl.
    destruct (resample_rounds k x y g2) as [[rest g'']|f] eqn:E; [|discriminate].
    simpl. intros [= <- _]. simpl. f_equal. eapply IH. exact E.
Qed.

(** The verdict in terms of the replicates: more than 9950 of the 10000 lie
    on one side of zero. *)
Lemma rejected_counts (x y : list fp_t) (g g' : rng)
    (pairs : list (list fp_t * list fp_t)) :
  resample_rounds (Z.to_nat BOOTSTRAP_SAMPLES) x y g = Returns (pairs, g') ->
  no_nan (map difference pairs) ->
  rejected x y g
  = Returns
      ((Z.to_nat BOOTSTRAP_SAMPLES
          <=? Z.to_nat 49 + count_above (map difference pairs))%nat
       || (Z.to_nat 9950 <? count_below (map difference pairs))%nat, g').
Proof.
  intros Hres Hnan.
  destruct (interval_counts (map difference pairs))
    as (lower & upper & Hint & Hlo & Hup).
  { unfold size. rewrite length_map.
    rewrite (resample_rounds_length _ _ _ _ _ _ Hres).
    unfold BOOTSTRAP_SAMPLES. lia. }
  { exact Hnan. }
  unfold rejected. rewrite bootstrap_loop_resamples, Hres. cbn [bind app].
  rewrite Hint. cbn [bind fst snd]. now rewrite Hlo, Hup.
Qed.

(** C9 (as amended): let a run of the tester on [(x, y)] draw the resampled
    pairs [pairs], none of whose replicates is NaN, and let a run on [(y, x)]
    draw the same resamples with the groups exchanged.  Then the replicates
    of the second run are those of the first with the sign flipped, and the
    two runs return the same verdict. *)
Theorem rejected_exchange (x y : list fp_t) (g1 g2 g1' g2' : rng)
    (pairs : list (list fp_t * list fp_t)) :
  resample_rounds (Z.to_nat BOOTSTRAP_SAMPLES) x y g1 = Returns (pairs, g1') ->
  resample_rounds (Z.to_nat BOOTSTRAP_SAMPLES) y x g2
  = Returns (map exchange pairs, g2') ->
  forallb (fun p => negb (is_nan (difference p))) pairs = true ->
  exists reps reps' b,
    bootstrap_loop (Z.to_nat BOOTSTRAP_SAMPLES) x y [] g1 = Returns (reps, g1')
    /\ bootstrap_loop (Z.to_nat BOOTSTRAP_SAMPLES) y x [] g2
       = Returns (reps', g2')
    /\ Forall2 (fun r r' => sign_of r' = flip (sign_of r)) reps reps'
    /\ rejected x y g1 = Returns (b, g1')
    /\ rejected y x g2 = Returns (b, g2').
Proof.
  intros H1 H2 Hnan.
  assert (Hn : no_nan (map difference pairs)).
  { unfold no_nan. apply Forall_map. apply Forall_forall. intros p Hp.
    rewrite forallb_forall in Hnan. specialize (Hnan p Hp).
    now apply negb_true_iff in Hnan. }
  assert (Hflip : Forall2 (fun r r' => sign_of r' = flip (sign_of r))
                    (map difference pairs)
                    (map difference (map exchange pairs))).
  { clear. induction pairs as [|p pairs IH]; simpl; constructor;
      [apply difference_exchange | exact IH]. }
  destruct (flipped_counts _ _ Hflip) as (Ha & Hb & Hn').
  exists (map difference pairs), (map difference (map exchange pairs)).
  eexists. split; [|split; [|split; [exact Hflip|split]]].
  - rewrite bootstrap_loop_resamples, H1. reflexivity.
  - rewrite bootstrap_loop_resamples, H2. reflexivity.
  - exact (rejected_counts x y g1 g1' pairs H1 Hn).
  - rewrite (rejected_counts y x g2 g2' _ H2 (Hn' Hn)), Ha, Hb.
    rewrite !symmetric_positions. now rewrite orb_comm.
Qed.

End Exchange.

(** *** The verdict is not a function of the two groups as a set *)

(** One round of the block source on [x = [5; 0]], [y = [0; 0]] from state 0:
    the first group resampled is read at position 0 twice, the second at
    position 1 twice, and the state is 0 again. *)
Lemma block_round_xy :
  @sample block_source [5; 0]%float (wrap32 (size [5; 0]%float)) 0
  = Returns ([5; 5]%float, 2)
  /\ @sample block_source [0; 0]%float (wrap32 (size [0; 0]%float)) 2
     = Returns ([0; 0]%float, 0)
  /\ (average [5; 5] - average [0; 0])%float = 5%float.
Proof. repeat split. Qed.

Lemma block_round_yx :
  @sample block_source [0; 0]%float (wrap32 (size [0; 0]%float)) 0
  = Returns ([0; 0]%float, 2)
  /\ @sample block_source [5; 0]%float (wrap32 (size [5; 0]%float)) 2
     = Returns ([0; 0]%float, 0)
  /\ (average [0; 0] - average [0; 0])%float = 0%float.
Proof. repeat split. Qed.

(** C9 (as stated) fails: two non-empty groups of equal size and a state of
    the random source from which the tester rejects on [(x, y)] and does not
    reject on [(y, x)]. *)
Lemma rejected_depends_on_order :
  let x := [5; 0]%float in
  let y := [0; 0]%float in
  x <> [] /\ y <> [] /\ size x = size y
  /\ @rejected block_source x y 0 = Returns (true, 0)
  /\ @rejected block_source y x 0 = Returns (false, 0)
  /\ @rejected block_source x y 0 <> @rejected block_source y x 0.
Proof.
  intros x y.
  assert (Hxy : @rejected block_source x y 0 = Returns (true, 0)).
  { destruct (@bootstrap_constant block_source x y 5%float (fun g => g = 0))
      with (k := Z.to_nat BOOTSTRAP_SAMPLES) (bootStrapped := @nil fp_t)
           (g := 0) as (g' & Hrun & ->).
    - intros g ->. destruct block_round_xy as (H1 & H2 & H3).
      exists [5; 5]%float, 2, [0; 0]%float, 0. auto.
    - reflexivity.
    - cbn [app] in Hrun.
      exact (@rejected_constant block_source x y 5%float 0 0 Hrun eq_refl). }
  assert (Hyx : @rejected block_source y x 0 = Returns (false, 0)).
  { destruct (@bootstrap_constant block_source y x 0%float (fun g => g = 0))
      with (k := Z.to_nat BOOTSTRAP_SAMPLES) (bootStrapped := @nil fp_t)
           (g := 0) as (g' & Hrun & ->).
    - intros g ->. destruct block_round_yx as (H1 & H2 & H3).
      exists [0; 0]%float, 2, [0; 0]%float, 0. auto.
    - reflexivity.
    - cbn [app] in Hrun.
      exact (@rejected_constant block_source y x 0%float 0 0 Hrun eq_refl). }
  split; [discriminate|]. split; [discriminate|]. split; [reflexivity|].
  split; [exact Hxy|]. split; [exact Hyx|].
  rewrite Hxy, Hyx. discriminate.
Qed.

Lemma rejected_exchange_witness :
  let x := [5; 0]%float in
  let y := [0; 0]%float in
  let pairs := repeat ([5; 5]%float, [0; 0]%float) (Z.to_nat BOOTSTRAP_SAMPLES) in
  @resample_rounds block_source (Z.to_nat BOOTSTRAP_SAMPLES) x y 0
  = Returns (pairs, 0)
  /\ @resample_rounds block_source (Z.to_nat BOOTSTRAP_SAMPLES) y x 2
     = Returns (map exchange pairs, 2)
  /\ forallb (fun p => negb (is_nan (difference p))) pairs = true
  /\ exists b,
       @rejected block_source x y 0 = Returns (b, 0)
       /\ @rejected block_source y x 2 = Returns (b, 2).
Proof.
  intros x y pairs.
  assert (H1 : @resample_rounds block_source (Z.to_nat BOOTSTRAP_SAMPLES) x y 0
               = Returns (pairs, 0)) by (vm_compute; reflexivity).
  assert (H2 : @resample_rounds block_source (Z.to_nat BOOTSTRAP_SAMPLES) y x 2
               = Returns (map exchange pairs, 2)) by (vm_compute; reflexivity).
  assert (H3 : forallb (fun p => negb (is_nan (difference p))) pairs = true)
    by (vm_compute; reflexivity).
  split; [exact H1|]. split; [exact H2|]. split; [exact H3|].
  destruct (@rejected_exchange block_source x y 0 2 0 2 pairs H1 H2 H3)
    as (_ & _ & b & _ & _ & _ & Hb1 & Hb2).
  exists b. split; assumption.
Defined.

(* ================================================================== *)
(** * Further properties of the program *)

(** ** The header and the two backlogs *)

Lemma skip_comments_fails (ls : list string) (f : failure) :
  skip_comments ls = Fails f
  <-> f = OutOfRange
      /\ exists comments rest,
           ls = comments ++ EmptyString :: rest
           /\ forallb is_comment comments = true.
Proof.
  induction ls as [|line ls IH]; simpl.
  - split; [discriminate|].
    intros (_ & [|c comments] & rest & E & _); discriminate.
  - destruct line as [|c line'].
    + split.
      * intros [= <-]. split; [reflexivity|]. now exists [], ls.
      * intros [-> _]. reflexivity.
    + destruct (Ascii.eqb c "#") eqn:Ec.
      * rewrite IH. split.
        -- intros (-> & comments & rest & -> & Hc). split; [reflexivity|].
           exists (String c line' :: comments), rest. split; [reflexivity|].
           simpl. now rewrite Ec, Hc.
        -- intros (-> & [|c0 comments] & rest & E & Hc); [discriminate|].
           injection E as <- ->. simpl in Hc. apply andb_true_iff in Hc as [_ Hc].
           split; [reflexivity|]. now exists comments, rest.
      * split; [discriminate|].
        intros (_ & [|c0 comments] & rest & E & Hc); [discriminate|].
        injection E as <- _. simpl in Hc. rewrite Ec in Hc. discriminate.
Qed.

Lemma skip_comments_returns (ls : list string) (line : string) :
  skip_comments ls = Returns line <-> count_line ls line.
Proof.
  unfold count_line. induction ls as [|l ls IH]; simpl.
  - split.
    + intros [= <-]. right. now split.
    + intros [([|c comments] & rest & E & _)|[_ ->]];
        [discriminate | discriminate | reflexivity].
  - destruct l as [|c l'].
    + split; [discriminate|].
      intros [([|c0 comments] & rest & E & Hc & Hne & Hl)|[Hc _]].
      * injection E as <- _. now contradiction Hne.
      * injection E as <- _. discriminate.
      * discriminate.
    + destruct (Ascii.eqb c "#") eqn:Ec.
      * rewrite IH. split.
        -- intros [(comments & rest & -> & Hc & Hne & Hl)|[Hc ->]].
           ++ left. exists (String c l' :: comments), rest.
              split; [reflexivity|]. simpl. now rewrite Ec, Hc.
           ++ right. simpl. rewrite Ec, Hc. now split.
        -- intros [([|c0 comments] & rest & E & Hc & Hne & Hl)|[Hc ->]].
           ++ injection E as <- _. simpl in Hl. rewrite Ec in Hl. discriminate.
           ++ injection E as <- ->. simpl in Hc.
              apply andb_true_iff in Hc as [_ Hc].
              left. now exists comments, rest.
           ++ right. simpl in Hc. apply andb_true_iff in Hc as [_ Hc].
              now split.
      * split.
        -- intros [= <-]. left. exists [], ls. simpl. rewrite Ec.
           repeat split. discriminate.
        -- intros [([|c0 comments] & rest & E & Hc & Hne & Hl)|[Hc _]].
           ++ now injection E as <- _.
           ++ injection E as <- _. simpl in Hc. rewrite Ec in Hc. discriminate.
           ++ simpl in Hc. rewrite Ec in Hc. discriminate.
Qed.

(** X1: when [parseInput] returns, the count is read (by [atoi], as an
    [unsigned int]) off the first line that is not a comment, or is 0 when
    every line is a comment; the reference backlog holds the first [count]
    extracted values and the candidate backlog the next [count], both in
    extraction order. *)
Theorem parseInput_backlogs (input : stdin) (samples : list fp_t * list fp_t) :
  parseInput input = Returns samples ->
  exists line,
    count_line (lines input) line
    /\ let n := Z.to_nat (wrap32 (atoi line)) in
       fst samples = map (numbers input) (seq 0 n)
       /\ snd samples = map (numbers input) (seq n n)
       /\ size (fst samples) = wrap32 (atoi line)
       /\ size (snd samples) = wrap32 (atoi line).
Proof.
  unfold parseInput.
  destruct (skip_comments (lines input)) as [line|f] eqn:E; [|discriminate].
  cbn [bind]. rewrite !fill_spec. intros [= <-].
  exists line. split; [now apply skip_comments_returns|].
  assert (0 <= wrap32 (atoi line))
    by (unfold wrap32; apply Z.mod_pos_bound; lia).
  cbn [fst snd app]. unfold size.
  rewrite !length_map, !length_seq. repeat split; lia.
Qed.

Lemma parseInput_backlogs_witness :
  let input := {| lines := ["# latencies"%string; "2"%string];
                  numbers := fun k => Z_to_fp (Z.of_nat k) |} in
  parseInput input = Returns ([0; 1]%float, [2; 3]%float)
  /\ exists line,
       count_line (lines input) line
       /\ [0; 1]%float = map (numbers input) (seq 0 (Z.to_nat (wrap32 (atoi line)))).
Proof.
  intros input.
  assert (H : parseInput input = Returns ([0; 1]%float, [2; 3]%float))
    by reflexivity.
  split; [exact H|].
  destruct (parseInput_backlogs input _ H) as (line & Hl & Hf & _).
  exists line. split; [exact Hl | exact Hf].
Defined.

(** X2: [parseInput] fails exactly when an empty line comes before the first
    line that is not a comment, and the failure is then the uncaught
    [std::out_of_range] of [line.at(0)]; on every other input it returns. *)
Theorem parseInput_fails_iff (input : stdin) :
  (forall f,
     parseInput input = Fails f
     <-> f = OutOfRange
         /\ exists comments rest,
              lines input = comments ++ EmptyString :: rest
              /\ forallb is_comment comments = true)
  /\ ((exists samples, parseInput input = Returns samples)
      <-> exists line, count_line (lines input) line).
Proof.
  split.
  - intros f. rewrite <- skip_comments_fails. unfold parseInput.
    destruct (skip_comments (lines input)) as [line|f0]; cbn [bind].
    + rewrite !fill_spec. split; discriminate.
    + split; intros [= ->]; reflexivity.
  - split.
    + intros (samples & H). destruct (parseInput_backlogs input samples H)
        as (line & Hl & _). now exists line.
    + intros (line & Hl). apply skip_comments_returns in Hl.
      unfold parseInput. rewrite Hl. cbn [bind]. rewrite !fill_spec. eauto.
Qed.

Lemma parseInput_fails_iff_witness :
  let input := {| lines := ["# header"%string; EmptyString; "3"%string];
                  numbers := fun _ => 0%float |} in
  parseInput input = Fails OutOfRange.
Proof.
  intros input.
  apply (proj1 (parseInput_fails_iff input) OutOfRange).
  split; [reflexivity|].
  exists ["# header"%string], ["3"%string]. split; reflexivity.
Defined.

(* ------------------------------------------------------------------ *)
(** ** Reading in two steps *)

(** X3: reading [n] observations and then [m] more from what is left gives,
    put end to end, what one read of [n + m] gives, and leaves the same
    backlog. *)
Theorem readSamples_twice (input : list fp_t) (n m : Z) :
  1 <= n -> 1 <= m -> n + m <= size input ->
  exists r1 rest1 r2 rest2,
    readSamples input n = Returns (r1, rest1)
    /\ readSamples rest1 m = Returns (r2, rest2)
    /\ readSamples input (n + m) = Returns (r1 ++ r2, rest2)
    /\ size r1 = n /\ size r2 = m
    /\ r1 ++ r2 ++ rest2 = input.
Proof.
  intros Hn Hm Hnm.
  pose proof (readSamples_eq input (Z.to_N n)) as E1.
  pose proof (readSamples_eq (skipn (Z.to_nat n) input) (Z.to_N m)) as E2.
  pose proof (readSamples_eq input (Z.to_N (n + m))) as E3.
  rewrite !Z2N.id in * by lia. rewrite !Z_N_nat in *.
  assert (Hskip : size (skipn (Z.to_nat n) input) = size input - n)
    by (unfold size in *; rewrite length_skipn; lia).
  replace ((1 <=? n) && (n <=? size input)) with true in E1
    by (symmetry; apply andb_true_iff; split; apply Z.leb_le; lia).
  replace ((1 <=? m) && (m <=? size (skipn (Z.to_nat n) input))) with true in E2
    by (symmetry; apply andb_true_iff; split; apply Z.leb_le; lia).
  replace ((1 <=? n + m) && (n + m <=? size input)) with true in E3
    by (symmetry; apply andb_true_iff; split; apply Z.leb_le; lia).
  exists (firstn (Z.to_nat n) input), (skipn (Z.to_nat n) input),
         (firstn (Z.to_nat m) (skipn (Z.to_nat n) input)),
         (skipn (Z.to_nat m) (skipn (Z.to_nat n) input)).
  split; [exact E1|]. split; [exact E2|]. split.
  - rewrite E3. rewrite skipn_skipn.
    replace (Z.to_nat (n + m)) with (Z.to_nat n + Z.to_nat m)%nat by lia.
    rewrite (Nat.add_comm (Z.to_nat m)). do 2 f_equal.
    rewrite <- (firstn_skipn (Z.to_nat n) input) at 1.
    rewrite firstn_app, firstn_firstn, length_firstn.
    replace (Nat.min (Z.to_nat n + Z.to_nat m) (Z.to_nat n)) with (Z.to_nat n)
      by lia.
    f_equal. f_equal. unfold size in *. lia.
  - unfold size in *. rewrite !length_firstn, length_skipn.
    split; [lia|]. split; [lia|].
    now rewrite (firstn_skipn (Z.to_nat m)), firstn_skipn.
Qed.

Lemma readSamples_twice_witness :
  1 <= 4 /\ 1 <= 1 /\ 4 + 1 <= size [1; 2; 3; 4; 5; 6]%float
  /\ exists r1 rest1 r2 rest2,
       readSamples [1; 2; 3; 4; 5; 6]%float 4 = Returns (r1, rest1)
       /\ readSamples rest1 1 = Returns (r2, rest2)
       /\ readSamples [1; 2; 3; 4; 5; 6]%float (4 + 1) = Returns (r1 ++ r2, rest2)
       /\ size r1 = 4 /\ size r2 = 1
       /\ r1 ++ r2 ++ rest2 = [1; 2; 3; 4; 5; 6]%float.
Proof.
  assert (H1 : 1 <= 4) by lia.
  assert (H2 : 1 <= 1) by lia.
  assert (H3 : 4 + 1 <= size [1; 2; 3; 4; 5; 6]%float) by (vm_compute; discriminate).
  split; [exact H1|]. split; [exact H2|]. split; [exact H3|].
  exact (readSamples_twice [1; 2; 3; 4; 5; 6]%float 4 1 H1 H2 H3).
Defined.

(* ------------------------------------------------------------------ *)
(** ** The resampler at its edges *)

Section ResamplerEdges.

Context {R : RandomSource}.

(** X4: asking for one or more elements of an empty vector is undefined
    behaviour: the distribution ranges over all of [size_t] and [values[i]]
    reads outside the vector. *)
Theorem sample_empty_undefined (sampleSize : Z) (g : rng) :
  0 < sampleSize -> sample [] sampleSize g = Fails Undefined.
Proof.
  intros Hn. unfold sample.
  destruct (Z.to_nat sampleSize) as [|k] eqn:E; [lia|].
  cbn [sample_loop].
  destruct (uniform 0 (wrap64 (size [] - 1)) g) as [i g'].
  unfold index. change (@size float []) with 0.
  destruct (Z.leb_spec 0 i), (Z.ltb_spec i 0); cbn [andb bind];
    try reflexivity; lia.
Qed.

Lemma sample_all_equal (c : fp_t) (values : list fp_t) (sampleSize : Z)
    (g : rng) :
  values <> [] -> Forall (eq c) values ->
  exists g',
    sample values sampleSize g = Returns (repeat c (Z.to_nat sampleSize), g').
Proof.
  intros Hne Hall.
  destruct (sample_returns values sampleSize g (or_introl Hne))
    as (r & g' & Hs & Hlen & Hin).
  exists g'. rewrite Hs. do 2 f_equal.
  assert (Hr : Forall (eq c) r).
  { apply Forall_forall. intros e He.
    rewrite Forall_forall in Hin, Hall. auto. }
  apply Forall_eq_repeat in Hr. now rewrite Hr, Hlen.
Qed.

(** X5: a vector whose elements are all equal to [c] is resampled to
    [sampleSize] copies of [c], whatever the generator draws. *)
Theorem sample_constant (c : fp_t) (values : list fp_t) (sampleSize : Z)
    (g : rng) :
  values <> [] -> Forall (eq c) values ->
  exists g',
    sample values sampleSize g = Returns (repeat c (Z.to_nat sampleSize), g').
Proof. apply sample_all_equal. Qed.

End ResamplerEdges.

Lemma sample_empty_undefined_witness :
  0 < 1 /\ @sample block_source [] 1 0 = Fails Undefined.
Proof.
  split; [reflexivity|].
  apply (@sample_empty_undefined block_source 1 0). reflexivity.
Defined.

Lemma sample_constant_witness :
  [7; 7; 7]%float <> [] /\ Forall (eq 7%float) [7; 7; 7]%float
  /\ exists g',
       @sample block_source [7; 7; 7]%float 5 0
       = Returns (repeat 7%float (Z.to_nat 5), g').
Proof.
  assert (H1 : [7; 7; 7]%float <> []) by discriminate.
  assert (H2 : Forall (eq 7%float) [7; 7; 7]%float)
    by (repeat constructor).
  split; [exact H1|]. split; [exact H2|].
  exact (@sample_constant block_source 7%float [7; 7; 7]%float 5 0 H1 H2).
Defined.

(* ------------------------------------------------------------------ *)
(** ** NaN in the mean *)

Lemma is_nan_spec (d : fp_t) : is_nan d = true <-> Prim2SF d = S754_nan.
Proof.
  rewrite is_nan_sign. unfold sign_of.
  destruct (Prim2SF d) as [s|s| |s m e]; try destruct s; simpl;
    split; congruence.
Qed.

Lemma add_nan_l (a b : fp_t) : is_nan a = true -> is_nan (a + b) = true.
Proof.
  rewrite !is_nan_spec, add_spec. intros ->. reflexivity.
Qed.

Lemma add_nan_r (a b : fp_t) : is_nan b = true -> is_nan (a + b) = true.
Proof.
  rewrite !is_nan_spec, add_spec. intros ->.
  destruct (Prim2SF a); reflexivity.
Qed.

Lemma div_nan_l (a b : fp_t) : is_nan a = true -> is_nan (a / b) = true.
Proof.
  rewrite !is_nan_spec, div_spec. intros ->. reflexivity.
Qed.

Lemma fold_nan (values : list fp_t) :
  forall acc,
    is_nan acc = true \/ Exists (fun v => is_nan v = true) values ->
    is_nan (fold_left (fun acc val => (acc + val)%float) values acc) = true.
Proof.
  induction values as [|v values IH]; intros acc [Hacc|Hex]; simpl.
  - exact Hacc.
  - inversion Hex.
  - apply IH. left. now apply add_nan_l.
  - apply IH. inversion Hex as [? ? Hv|? ? Hrest]; subst.
    + left. now apply add_nan_r.
    + now right.
Qed.

(** X6: one NaN among the observations makes the mean NaN. *)
Theorem average_nan (values : list fp_t) :
  Exists (fun v => is_nan v = true) values -> is_nan (average values) = true.
Proof.
  intros H. unfold average. cbv zeta.
  apply div_nan_l. apply fold_nan. now right.
Qed.

Lemma average_nan_witness :
  Exists (fun v => is_nan v = true) [1; nan; 3]%float
  /\ is_nan (average [1; nan; 3]%float) = true.
Proof.
  assert (H : Exists (fun v => is_nan v = true) [1; nan; 3]%float)
    by (right; left; reflexivity).
  split; [exact H | exact (average_nan _ H)].
Defined.

(* ------------------------------------------------------------------ *)
(** ** The verdict of the tester *)

Lemma ltb_irrefl (d : fp_t) : (d <? d)%float = false.
Proof.
  rewrite ltb_spec. unfold SFltb, SFcompare.
  destruct (Prim2SF d) as [s|s| |s m e]; try destruct s; try reflexivity;
    now rewrite Z.compare_refl, Pos.compare_cont_refl.
Qed.

Lemma StronglySorted_nth_error {A : Type} (Rel : A -> A -> Prop) (l : list A) :
  StronglySorted Rel l ->
  forall (i j : nat) (a b : A),
    (i < j)%nat -> nth_error l i = Some a -> nth_error l j = Some b -> Rel a b.
Proof.
  induction 1 as [|c l Hs IH Hc]; intros i j a b Hij Ha Hb.
  - destruct i; discriminate.
  - destruct j as [|j]; [lia|]. simpl in Hb.
    destruct i as [|i]; simpl in Ha.
    + injection Ha as <-. rewrite Forall_forall in Hc. apply Hc.
      eapply nth_error_In; eauto.
    + eapply IH; [|exact Ha|exact Hb]. lia.
Qed.

Section Verdict.

Context {R : RandomSource}.

(** X7: when no replicate is NaN the tester rejects exactly when at least
    9951 of the 10000 replicates lie above zero, or at least 9951 below. *)
Theorem rejected_majority (x y : list fp_t) (g g' : rng)
    (pairs : list (list fp_t * list fp_t)) :
  resample_rounds (Z.to_nat BOOTSTRAP_SAMPLES) x y g = Returns (pairs, g') ->
  forallb (fun p => negb (is_nan (difference p))) pairs = true ->
  exists b,
    rejected x y g = Returns (b, g')
    /\ (b = true
        <-> (Z.to_nat 9951 <= count_above (map difference pairs))%nat
            \/ (Z.to_nat 9951 <= count_below (map difference pairs))%nat).
Proof.
  intros Hres Hnan.
  assert (Hn : no_nan (map difference pairs)).
  { unfold no_nan. apply Forall_map. apply Forall_forall. intros p Hp.
    rewrite forallb_forall in Hnan. specialize (Hnan p Hp).
    now apply negb_true_iff in Hnan. }
  eexists. split; [exact (rejected_counts x y g g' pairs Hres Hn)|].
  rewrite symmetric_positions, orb_true_iff, !Nat.ltb_lt. lia.
Qed.

(** X10: when no replicate is NaN the interval the tester decides on is
    well formed: its lower bound is at most its upper bound. *)
Theorem rejected_interval_ordered (x y : list fp_t) (g g' : rng)
    (pairs : list (list fp_t * list fp_t)) :
  resample_rounds (Z.to_nat BOOTSTRAP_SAMPLES) x y g = Returns (pairs, g') ->
  forallb (fun p => negb (is_nan (difference p))) pairs = true ->
  exists lower upper,
    bootstrap_loop (Z.to_nat BOOTSTRAP_SAMPLES) x y [] g
    = Returns (map difference pairs, g')
    /\ getInterval (sort (map difference pairs)) SIGNIFICANCE_ALPHA
       = Returns (lower, upper)
    /\ (lower <=? upper)%float = true
    /\ rejected x y g
       = Returns ((0 <? lower)%float || (upper <? 0)%float, g').
Proof.
  intros Hres Hnan.
  assert (Hn : no_nan (map difference pairs)).
  { unfold no_nan. apply Forall_map. apply Forall_forall. intros p Hp.
    rewrite forallb_forall in Hnan. specialize (Hnan p Hp).
    now apply negb_true_iff in Hnan. }
  assert (Hrun : bootstrap_loop (Z.to_nat BOOTSTRAP_SAMPLES) x y [] g
                 = Returns (map difference pairs, g')).
  { rewrite bootstrap_loop_resamples, Hres. reflexivity. }
  destruct (getInterval_bootstrap (sort (map difference pairs)))
    as (lower & upper & Hl & Hu & Hint).
  { rewrite sort_size. unfold size. rewrite length_map.
    rewrite (resample_rounds_length _ _ _ _ _ _ Hres).
    unfold BOOTSTRAP_SAMPLES. lia. }
  exists lower, upper. split; [exact Hrun|]. split; [exact Hint|]. split.
  - apply (StronglySorted_nth_error _ _ (sort_ascending _ Hn)
             (Z.to_nat 49) (Z.to_nat 9950)); [lia | exact Hl | exact Hu].
  - unfold rejected. rewrite Hrun. cbn [bind]. rewrite Hint. reflexivity.
Qed.

Lemma sample_repeat (c : fp_t) (n : nat) (g : rng) :
  Z.of_nat n < 2 ^ 32 ->
  exists g',
    sample (repeat c n) (wrap32 (size (repeat c n))) g
    = Returns (repeat c n, g').
Proof.
  intros Hn.
  assert (E : Z.to_nat (wrap32 (size (repeat c n))) = n).
  { unfold size, wrap32. rewrite repeat_length, Z.mod_small by lia. lia. }
  destruct n as [|n].
  - exists g. reflexivity.
  - destruct (sample_all_equal c (repeat c (S n))
                (wrap32 (size (repeat c (S n)))) g) as (g' & Hs).
    + simpl. discriminate.
    + apply Forall_forall. intros e He. symmetry.
      exact (repeat_spec _ _ _ He).
    + exists g'. now rewrite Hs, E.
Qed.

(** On two groups of copies of one value each, every replicate is the
    difference of the two means. *)
Lemma rejected_repeat (c1 c2 : fp_t) (n m : nat) (g : rng) :
  Z.of_nat n < 2 ^ 32 -> Z.of_nat m < 2 ^ 32 ->
  let d := (average (repeat c1 n) - average (repeat c2 m))%float in
  exists g',
    rejected (repeat c1 n) (repeat c2 m) g
    = Returns ((0 <? d)%float || (d <? 0)%float, g').
Proof.
  intros Hn Hm d.
  destruct (bootstrap_constant (repeat c1 n) (repeat c2 m) d (fun _ => True))
    with (k := Z.to_nat BOOTSTRAP_SAMPLES) (bootStrapped := @nil fp_t) (g := g)
    as (g' & Hrun & _); [|exact Logic.I|].
  - intros g0 _.
    destruct (sample_repeat c1 n g0 Hn) as (g1 & H1).
    destruct (sample_repeat c2 m g1 Hm) as (g2 & H2).
    exists (repeat c1 n), g1, (repeat c2 m), g2. auto.
  - exists g'. cbn [app] in Hrun.
    exact (rejected_constant _ _ d g g' Hrun (ltb_irrefl d)).
Qed.

(** X8: on a group of [n] copies of [c1] and a group of [m] copies of [c2]
    the verdict does not depend on the generator: the tester rejects exactly
    when the difference of the two means is above or below zero. *)
Theorem rejected_constant_groups (c1 c2 : fp_t) (n m : nat) (g : rng) :
  Z.of_nat n < 2 ^ 32 -> Z.of_nat m < 2 ^ 32 ->
  let d := (average (repeat c1 n) - average (repeat c2 m))%float in
  exists g',
    rejected (repeat c1 n) (repeat c2 m) g
    = Returns ((0 <? d)%float || (d <? 0)%float, g').
Proof. apply rejected_repeat. Qed.

Lemma self_difference (a : fp_t) :
  (0 <? a - a)%float = false /\ (a - a <? 0)%float = false.
Proof.
  rewrite zero_ltb_sign, ltb_zero_sign.
  pose proof (sub_sign a a) as H.
  destruct (sign_of (a - a)); simpl in H; try discriminate; split; reflexivity.
Qed.

Lemma rejected_same_repeat (c : fp_t) (n : nat) (g : rng) :
  Z.of_nat n < 2 ^ 32 ->
  exists g', rejected (repeat c n) (repeat c n) g = Returns (false, g').
Proof.
  intros Hn.
  destruct (rejected_repeat c c n n g Hn Hn) as (g' & Hr).
  exists g'. rewrite Hr.
  destruct (self_difference (average (repeat c n))) as [-> ->]. reflexivity.
Qed.

(** X9: two groups of equal size whose observations all have one and the
    same value are never told apart, whatever that value (NaN and the
    infinities included) and whatever the generator draws. *)
Theorem rejected_same_constant (c : fp_t) (n : nat) (g : rng) :
  Z.of_nat n < 2 ^ 32 ->
  exists g', rejected (repeat c n) (repeat c n) g = Returns (false, g').
Proof. apply rejected_same_repeat. Qed.

End Verdict.

(** X16: on an empty replicate set [getInterval] never returns: [size() - 1]
    wraps around, and either [at] throws or the index is no [size_t]. *)
Theorem getInterval_empty (alpha : fp_t) :
  getInterval [] alpha = Fails OutOfRange
  \/ getInterval [] alpha = Fails Undefined.
Proof.
  assert (H : forall d, at_fp [] d = Fails OutOfRange
                        \/ at_fp [] d = Fails Undefined).
  { intros d. unfold at_fp.
    destruct (fp_to_size d) as [i|] eqn:Ei; [left | right; reflexivity].
    unfold at_. rewrite andb_comm.
    replace (i <? size []) with false; [reflexivity|].
    symmetry. apply Z.ltb_ge. apply fp_to_size_range in Ei.
    change (@size float []) with 0. lia. }
  unfold getInterval. cbv zeta.
  destruct (H (floor (size_to_fp (wrap64 (@size float [] - 1))
                      * (alpha / 2))%float))
    as [E|E]; rewrite E; [left | right]; reflexivity.
Qed.

Lemma rejected_majority_witness :
  let x := [5; 0]%float in
  let y := [0; 0]%float in
  let pairs := repeat ([5; 5]%float, [0; 0]%float) (Z.to_nat BOOTSTRAP_SAMPLES) in
  @resample_rounds block_source (Z.to_nat BOOTSTRAP_SAMPLES) x y 0
  = Returns (pairs, 0)
  /\ forallb (fun p => negb (is_nan (difference p))) pairs = true
  /\ exists b,
       @rejected block_source x y 0 = Returns (b, 0)
       /\ (b = true
           <-> (Z.to_nat 9951 <= count_above (map difference pairs))%nat
               \/ (Z.to_nat 9951 <= count_below (map difference pairs))%nat).
Proof.
  intros x y pairs.
  assert (H1 : @resample_rounds block_source (Z.to_nat BOOTSTRAP_SAMPLES) x y 0
               = Returns (pairs, 0)) by (vm_compute; reflexivity).
  assert (H2 : forallb (fun p => negb (is_nan (difference p))) pairs = true)
    by (vm_compute; reflexivity).
  split; [exact H1|]. split; [exact H2|].
  exact (@rejected_majority block_source x y 0 0 pairs H1 H2).
Defined.

Lemma rejected_interval_ordered_witness :
  let x := [5; 0]%float in
  let y := [0; 0]%float in
  let pairs := repeat ([5; 5]%float, [0; 0]%float) (Z.to_nat BOOTSTRAP_SAMPLES) in
  @resample_rounds block_source (Z.to_nat BOOTSTRAP_SAMPLES) x y 0
  = Returns (pairs, 0)
  /\ forallb (fun p => negb (is_nan (difference p))) pairs = true
  /\ exists lower upper,
       getInterval (sort (map difference pairs)) SIGNIFICANCE_ALPHA
       = Returns (lower, upper)
       /\ (lower <=? upper)%float = true.
Proof.
  intros x y pairs.
  assert (H1 : @resample_rounds block_source (Z.to_nat BOOTSTRAP_SAMPLES) x y 0
               = Returns (pairs, 0)) by (vm_compute; reflexivity).
  assert (H2 : forallb (fun p => negb (is_nan (difference p))) pairs = true)
    by (vm_compute; reflexivity).
  split; [exact H1|]. split; [exact H2|].
  destruct (@rejected_interval_ordered block_source x y 0 0 pairs H1 H2)
    as (lower & upper & _ & Hint & Hle & _).
  exists lower, upper. split; [exact Hint | exact Hle].
Defined.

Lemma rejected_constant_groups_witness :
  Z.of_nat 4 < 2 ^ 32
  /\ (let d := (average (repeat 0 4) - average (repeat 100 4))%float in
      (0 <? d)%float || (d <? 0)%float) = true
  /\ exists g',
       @rejected block_source (repeat 0%float 4) (repeat 100%float 4) 0
       = Returns (true, g').
Proof.
  assert (H : Z.of_nat 4 < 2 ^ 32) by reflexivity.
  split; [exact H|]. split; [reflexivity|].
  exact (@rejected_constant_groups block_source 0%float 100%float 4 4 0 H H).
Defined.

Lemma rejected_same_constant_witness :
  Z.of_nat 60 < 2 ^ 32
  /\ exists g',
       @rejected block_source (repeat 10%float 60) (repeat 10%float 60) 0
       = Returns (false, g').
Proof.
  assert (H : Z.of_nat 60 < 2 ^ 32) by reflexivity.
  split; [exact H|].
  exact (@rejected_same_constant block_source 10%float 60 0 H).
Defined.

(* ------------------------------------------------------------------ *)
(** ** Every run of the driver *)

Section EveryRun.

Context {R : RandomSource}.

(** How [main] gets to the loop: the loop is entered, in the state
    [driver_at samples 0 g], exactly when the reference backlog holds
    [MAX_SAMPLE_SIZE] observations and the candidate backlog
    [INITAL_SAMPLE_SIZE]; otherwise an assertion fails. *)
Lemma startup_cases (samples : list fp_t * list fp_t) (g : rng) :
  (MAX_SAMPLE_SIZE <= size (fst samples)
   /\ INITAL_SAMPLE_SIZE <= size (snd samples)
   /\ startup samples g = Returns (driver_at samples 0 g))
  \/ ((size (fst samples) < MAX_SAMPLE_SIZE
       \/ size (snd samples) < INITAL_SAMPLE_SIZE)
      /\ startup samples g = Fails AssertionFailure).
Proof.
  destruct (Z.lt_ge_cases (size (fst samples)) MAX_SAMPLE_SIZE) as [H1|H1].
  - right. split; [now left | now apply startup_fails].
  - destruct (Z.lt_ge_cases (size (snd samples)) INITAL_SAMPLE_SIZE) as [H2|H2].
    + right. split; [now right|].
      unfold startup, assert.
      replace (INITAL_SAMPLE_SIZE <=? size (fst samples)) with true
        by (symmetry; apply Z.leb_le;
            unfold MAX_SAMPLE_SIZE, INITAL_SAMPLE_SIZE in *; lia).
      replace (MAX_SAMPLE_SIZE <=? size (fst samples)) with true
        by (symmetry; apply Z.leb_le; lia).
      cbn [andb bind].
      change INITAL_SAMPLE_SIZE with (Z.of_N 4) in *.
      rewrite !readSamples_eq.
      replace (Z.of_N 4 <=? size (fst samples)) with true
        by (symmetry; apply Z.leb_le; unfold MAX_SAMPLE_SIZE in *; lia).
      replace (Z.of_N 4 <=? size (snd samples)) with false
        by (symmetry; apply Z.leb_gt; lia).
      reflexivity.
    + left. split; [exact H1|]. split; [exact H2|].
      now apply startup_returns.
Qed.

(** Where the loop can go from the state after [k] rounds. *)
Lemma while_loop_outcomes (samples : list fp_t * list fp_t) :
  forall (j k : nat) (g : rng) (fuel : nat),
    (k + j = 57)%nat -> (j < fuel)%nat ->
    Z.of_nat (4 + k) <= size (fst samples) ->
    Z.of_nat (4 + k) <= size (snd samples) ->
    exists t,
      while_loop fuel (driver_at samples k g) = Some t
      /\ ((exists i g1 g2,
             (k <= i <= 56)%nat
             /\ Z.of_nat (4 + i) <= size (fst samples)
             /\ Z.of_nat (4 + i) <= size (snd samples)
             /\ rejected (firstn (4 + i) (fst samples))
                         (firstn (4 + i) (snd samples)) g1 = Returns (true, g2)
             /\ t = Rejected (rejected_at samples i g2))
          \/ (exists i,
                (k <= i <= 56)%nat
                /\ (size (fst samples) = Z.of_nat (4 + i)
                    \/ size (snd samples) = Z.of_nat (4 + i))
                /\ t = Crash AssertionFailure (S i))
          \/ (exists g',
                Z.of_nat 61 <= size (fst samples)
                /\ Z.of_nat 61 <= size (snd samples)
                /\ t = Exhausted (driver_at samples 57 g'))).
Proof.
  induction j as [|j IH]; intros k g fuel Hkj Hfuel H1 H2;
    (destruct fuel as [|fuel]; [lia|]); cbn [while_loop].
  - assert (k = 57%nat) by lia. subst k.
    rewrite exhausted_at by (unfold MAX_SAMPLE_SIZE, INITAL_SAMPLE_SIZE; lia).
    eexists. split; [reflexivity|].
    right. right. exists g. repeat split; assumption.
  - destruct (round_at samples k g) as (b & g' & Hrej & Hround);
      [unfold MAX_SAMPLE_SIZE, INITAL_SAMPLE_SIZE; lia|].
    rewrite Hround. destruct b.
    + eexists. split; [reflexivity|].
      left. exists k, g, g'. repeat split; try assumption; lia.
    + destruct (Z.ltb_spec (Z.of_nat (4 + k)) (size (fst samples))) as [L1|L1];
        [destruct (Z.ltb_spec (Z.of_nat (4 + k)) (size (snd samples)))
           as [L2|L2]|]; cbn [andb].
      * destruct (IH (S k) g' fuel) as (t & Ht & Hcases); try lia.
        exists t. split; [exact Ht|].
        destruct Hcases as [(i & g1 & g2 & Hi & Hrest)
                           |[(i & Hi & Hrest)|Hrest]].
        -- left. exists i, g1, g2. split; [lia | exact Hrest].
        -- right. left. exists i. split; [lia | exact Hrest].
        -- right. right. exact Hrest.
      * eexists. split; [reflexivity|].
        right. left. exists k. repeat split; lia.
      * eexists. split; [reflexivity|].
        right. left. exists k. repeat split; lia.
Qed.

(** Every run: it terminates, and it ends in one of four ways. *)
Lemma run_outcomes (samples : list fp_t * list fp_t) (g : rng) :
  exists t,
    run samples g = Some t
    /\ (((size (fst samples) < MAX_SAMPLE_SIZE
          \/ size (snd samples) < INITAL_SAMPLE_SIZE)
         /\ t = Crash AssertionFailure 0)
        \/ (exists i g1 g2,
              (i <= 56)%nat
              /\ Z.of_nat (4 + i) <= size (fst samples)
              /\ Z.of_nat (4 + i) <= size (snd samples)
              /\ rejected (firstn (4 + i) (fst samples))
                          (firstn (4 + i) (snd samples)) g1
                 = Returns (true, g2)
              /\ t = Rejected (rejected_at samples i g2))
        \/ (exists i,
              (i <= 56)%nat
              /\ (size (fst samples) = Z.of_nat (4 + i)
                  \/ size (snd samples) = Z.of_nat (4 + i))
              /\ t = Crash AssertionFailure (S i))
        \/ (exists g',
              Z.of_nat 61 <= size (fst samples)
              /\ Z.of_nat 61 <= size (snd samples)
              /\ t = Exhausted (driver_at samples 57 g'))).
Proof.
  unfold run.
  destruct (startup_cases samples g) as [(H1 & H2 & ->)|(Hs & ->)].
  - destruct (while_loop_outcomes samples 57 0 g rounds_bound)
      as (t & Ht & Hcases).
    + reflexivity.
    + unfold rounds_bound, MAX_SAMPLE_SIZE, INITAL_SAMPLE_SIZE. lia.
    + unfold MAX_SAMPLE_SIZE in H1. lia.
    + unfold INITAL_SAMPLE_SIZE in H2. lia.
    + exists t. split; [exact Ht|]. right.
      destruct Hcases as [(i & g1 & g2 & Hi & Hrest)
                         |[(i & Hi & Hrest)|Hrest]].
      * left. exists i, g1, g2. split; [lia | exact Hrest].
      * right. left. exists i. split; [lia | exact Hrest].
      * right. right. exact Hrest.
  - eexists. split; [reflexivity|]. left. now split.
Qed.


(** X13: every run terminates, and by then it has called the tester at
    most 57 times (once for each group size from 4 to 60). *)
Theorem run_tests_bounded (samples : list fp_t * list fp_t) (g : rng) :
  exists t, run samples g = Some t /\ (tests_of t <= 57)%nat.
Proof.
  destruct (run_outcomes samples g)
    as (t & Ht & [[_ ->]|[(i & g1 & g2 & Hi & _ & _ & _ & ->)
                         |[(i & Hi & _ & ->)|(g' & _ & _ & ->)]]]);
    eexists; (split; [exact Ht|]); simpl; lia.
Qed.

(** X14: a run exits with status 0 only on backlogs of at least 61
    observations each, one more than [MAX_SAMPLE_SIZE]: with fewer in either
    backlog no run ends that way. *)
Theorem run_short_backlog_never_exhausted (samples : list fp_t * list fp_t)
    (g : rng) :
  size (fst samples) <= MAX_SAMPLE_SIZE \/ size (snd samples) <= MAX_SAMPLE_SIZE ->
  exists t, run samples g = Some t /\ exit_status t <> Some 0.
Proof.
  intros Hshort.
  destruct (run_outcomes samples g)
    as (t & Ht & [[_ ->]|[(i & g1 & g2 & _ & _ & _ & _ & ->)
                         |[(i & _ & _ & ->)|(g' & H1 & H2 & ->)]]]);
    eexists; (split; [exact Ht|]); simpl; try discriminate.
  unfold MAX_SAMPLE_SIZE in Hshort. lia.
Qed.

(** X15: a run that ends rejected has exit status 1 and stopped at the first
    test that rejected; the groups it stopped with are the first [4 + i]
    observations of the two backlogs for some [i <= 56] (so they have equal
    size between 4 and 60, in arrival order), the tester was called [i + 1]
    times, and the rest of each backlog is untouched. *)
Theorem run_rejected_state (samples : list fp_t * list fp_t) (g : rng)
    (d : driver) :
  run samples g = Some (Rejected d) ->
  exit_status (Rejected d) = Some 1
  /\ exists (i : nat) (g1 : rng),
       (i <= 56)%nat
       /\ x d = firstn (4 + i) (fst samples)
       /\ y d = firstn (4 + i) (snd samples)
       /\ size (x d) = Z.of_nat (4 + i) /\ size (y d) = Z.of_nat (4 + i)
       /\ tested d = S i
       /\ x d ++ first d = fst samples /\ y d ++ second d = snd samples
       /\ rejected (x d) (y d) g1 = Returns (true, gen d).
Proof.
  intros Hrun. split; [reflexivity|].
  destruct (run_outcomes samples g)
    as (t & Ht & [[_ ->]|[(i & g1 & g2 & Hi & H1 & H2 & Hrej & ->)
                         |[(i & _ & _ & ->)|(g' & _ & _ & ->)]]]);
    rewrite Ht in Hrun; try discriminate.
  injection Hrun as <-. exists i, g1. cbn [rejected_at x y first second tested gen].
  unfold size in *. rewrite !length_firstn, !firstn_skipn.
  repeat split; try lia; try assumption.
Qed.

End EveryRun.

Section Invariant.

Context {R : RandomSource}.

Lemma reaches_driver_at (samples : list fp_t * list fp_t) (d0 d : driver) :
  reaches d0 d ->
  forall (k : nat) (g : rng),
    d0 = driver_at samples k g ->
    (k <= 57)%nat ->
    Z.of_nat (4 + k) <= size (fst samples) ->
    Z.of_nat (4 + k) <= size (snd samples) ->
    exists (k' : nat) (g' : rng),
      d = driver_at samples k' g'
      /\ (k <= k' <= 57)%nat
      /\ Z.of_nat (4 + k') <= size (fst samples)
      /\ Z.of_nat (4 + k') <= size (snd samples).
Proof.
  induction 1 as [d|d d' d'' Hround Hreach IH]; intros k g -> Hk H1 H2.
  - exists k, g. repeat split; try assumption; lia.
  - destruct (Nat.eq_dec k 57) as [->|Hne].
    + rewrite exhausted_at in Hround
        by (unfold MAX_SAMPLE_SIZE, INITAL_SAMPLE_SIZE; lia).
      discriminate.
    + destruct (round_at samples k g) as (b & g' & _ & Hr);
        [unfold MAX_SAMPLE_SIZE, INITAL_SAMPLE_SIZE; lia|].
      rewrite Hr in Hround. destruct b; [discriminate|].
      destruct (Z.ltb_spec (Z.of_nat (4 + k)) (size (fst samples))) as [L1|L1];
        [destruct (Z.ltb_spec (Z.of_nat (4 + k)) (size (snd samples)))
           as [L2|L2]|]; cbn [andb] in Hround; try discriminate.
      injection Hround as <-.
      destruct (IH (S k) g' eq_refl) as (k' & g'' & -> & Hk' & H1' & H2');
        try lia.
      exists k', g''. repeat split; try assumption; lia.
Qed.

(** X11: in every state a run passes through at the head of the loop, each
    group followed by what is left of its backlog is the backlog as parsed
    (nothing lost, nothing reordered), the two groups have the same size,
    which is [current], [current] lies between 4 and 61, and the tester has
    been called [current - 4] times. *)
Theorem driver_invariant (samples : list fp_t * list fp_t) (g : rng)
    (d0 d : driver) :
  startup samples g = Returns d0 -> reaches d0 d ->
  x d ++ first d = fst samples
  /\ y d ++ second d = snd samples
  /\ size (x d) = current d /\ size (y d) = current d
  /\ INITAL_SAMPLE_SIZE <= current d <= MAX_SAMPLE_SIZE + 1
  /\ Z.of_nat (tested d) = current d - INITAL_SAMPLE_SIZE.
Proof.
  intros Hstart Hreach.
  destruct (startup_cases samples g) as [(H1 & H2 & E)|(_ & E)];
    rewrite E in Hstart; [|discriminate].
  injection Hstart as <-.
  destruct (reaches_driver_at samples _ _ Hreach 0%nat g eq_refl)
    as (k & g' & -> & Hk & L1 & L2);
    [lia | unfold MAX_SAMPLE_SIZE in H1; lia
     | unfold INITAL_SAMPLE_SIZE in H2; lia |].
  cbn [driver_at x y first second current tested].
  unfold size, INITAL_SAMPLE_SIZE, MAX_SAMPLE_SIZE in *.
  rewrite !firstn_skipn, !length_firstn. repeat split; lia.
Qed.

(** Constant backlogs whose first four observations differ in the mean: the
    first test rejects. *)
Lemma run_repeat_rejects (c1 c2 : fp_t) (N : nat) (g : rng) :
  (60 <= N)%nat -> Z.of_nat N < 2 ^ 32 ->
  (let d := (average (repeat c1 4) - average (repeat c2 4))%float in
   (0 <? d)%float || (d <? 0)%float) = true ->
  exists g',
    run (repeat c1 N, repeat c2 N) g
    = Some (Rejected (rejected_at (repeat c1 N, repeat c2 N) 0 g')).
Proof.
  intros HN Hbound Hd. unfold run.
  rewrite startup_returns
    by (unfold size, MAX_SAMPLE_SIZE, INITAL_SAMPLE_SIZE;
        cbn [fst snd]; rewrite repeat_length; lia).
  change rounds_bound with (S 57). cbn [while_loop].
  destruct (round_at (repeat c1 N, repeat c2 N) 0 g) as (b & g' & Hrej & Hr);
    [unfold MAX_SAMPLE_SIZE, INITAL_SAMPLE_SIZE; lia|].
  cbn [fst snd] in Hrej. rewrite !firstn_repeat in Hrej by lia.
  destruct (rejected_repeat c1 c2 4 4 g) as (g'' & Hrej');
    [reflexivity | reflexivity|].
  cbv zeta in Hd. change (4 + 0)%nat with 4%nat in Hrej.
  rewrite Hrej', Hd in Hrej. injection Hrej as <- <-.
  exists g''. rewrite Hr. reflexivity.
Qed.

(** X17: when each backlog holds [N >= 60] copies of one value and the means
    of four copies differ, the run ends rejected, with exit status 1, after a
    single test on groups of four: the loop stops as early as it can. *)
Theorem run_constant_rejects_at_once (c1 c2 : fp_t) (N : nat) (g : rng) :
  (60 <= N)%nat -> Z.of_nat N < 2 ^ 32 ->
  (let d := (average (repeat c1 4) - average (repeat c2 4))%float in
   (0 <? d)%float || (d <? 0)%float) = true ->
  exists t,
    run (repeat c1 N, repeat c2 N) g = Some t
    /\ exit_status t = Some 1 /\ tests_of t = 1%nat
    /\ exists d, t = Rejected d /\ size (x d) = 4 /\ size (y d) = 4.
Proof.
  intros HN Hbound Hd.
  destruct (run_repeat_rejects c1 c2 N g HN Hbound Hd) as (g' & Hrun).
  eexists. split; [exact Hrun|]. split; [reflexivity|]. split; [reflexivity|].
  eexists. split; [reflexivity|].
  cbn [rejected_at x y fst snd]. unfold size.
  rewrite !length_firstn, !repeat_length. split; lia.
Qed.

Lemma run_same_repeat (c : fp_t) (N : nat) (g : rng) :
  (61 <= N)%nat -> Z.of_nat N < 2 ^ 32 ->
  exists g',
    run (repeat c N, repeat c N) g
    = Some (Exhausted (driver_at (repeat c N, repeat c N) 57 g')).
Proof.
  intros HN Hbound.
  destruct (run_cases (repeat c N, repeat c N) (Z.of_nat N) g)
    as (t & Ht & [(i & g1 & g2 & d & Hi & Hr & _)|[[E _]|[_ [g' ->]]]]).
  - unfold size. cbn [fst]. now rewrite repeat_length.
  - unfold size. cbn [snd]. now rewrite repeat_length.
  - unfold MAX_SAMPLE_SIZE. lia.
  - exfalso. cbn [fst snd] in Hr. rewrite firstn_repeat in Hr by lia.
    destruct (rejected_same_repeat c (4 + i) g1) as (g' & Hr'); [lia|].
    rewrite Hr' in Hr. discriminate.
  - unfold MAX_SAMPLE_SIZE in E. lia.
  - now exists g'.
Qed.

(** X18: when both backlogs hold [N >= 61] copies of one and the same value
    the run never rejects: it makes all 57 tests and ends with exit
    status 0, whatever the value and whatever the generator draws. *)
Theorem run_same_constant_exhausts (c : fp_t) (N : nat) (g : rng) :
  (61 <= N)%nat -> Z.of_nat N < 2 ^ 32 ->
  exists t,
    run (repeat c N, repeat c N) g = Some t
    /\ exit_status t = Some 0 /\ tests_of t = 57%nat.
Proof.
  intros HN Hbound.
  destruct (run_same_repeat c N g HN Hbound) as (g' & Hrun).
  eexists. split; [exact Hrun|]. split; reflexivity.
Qed.

End Invariant.


Lemma run_short_backlog_never_exhausted_witness :
  (size (fst (repeat 0%float 60, repeat 0%float 60)) <= MAX_SAMPLE_SIZE
   \/ size (snd (repeat 0%float 60, repeat 0%float 60)) <= MAX_SAMPLE_SIZE)
  /\ exists t,
       @run block_source (repeat 0%float 60, repeat 0%float 60) 0 = Some t
       /\ exit_status t <> Some 0.
Proof.
  assert (H : size (fst (repeat 0%float 60, repeat 0%float 60)) <= MAX_SAMPLE_SIZE
              \/ size (snd (repeat 0%float 60, repeat 0%float 60)) <= MAX_SAMPLE_SIZE)
    by (left; vm_compute; discriminate).
  split; [exact H|].
  exact (@run_short_backlog_never_exhausted block_source _ 0 H).
Defined.

Lemma run_constant_rejects_at_once_witness :
  (60 <= 60)%nat /\ Z.of_nat 60 < 2 ^ 32
  /\ (let d := (average (repeat 50 4) - average (repeat 500 4))%float in
      (0 <? d)%float || (d <? 0)%float) = true
  /\ exists t,
       @run block_source (repeat 50%float 60, repeat 500%float 60) 0 = Some t
       /\ exit_status t = Some 1 /\ tests_of t = 1%nat.
Proof.
  assert (H1 : (60 <= 60)%nat) by lia.
  assert (H2 : Z.of_nat 60 < 2 ^ 32) by reflexivity.
  assert (H3 : (let d := (average (repeat 50 4) - average (repeat 500 4))%float in
                (0 <? d)%float || (d <? 0)%float) = true) by reflexivity.
  split; [exact H1|]. split; [exact H2|]. split; [exact H3|].
  destruct (@run_constant_rejects_at_once block_source 50%float 500%float 60 0
              H1 H2 H3) as (t & Ht & He & Hn & _).
  exists t. split; [exact Ht|]. split; [exact He | exact Hn].
Defined.

Lemma run_same_constant_exhausts_witness :
  (61 <= 61)%nat /\ Z.of_nat 61 < 2 ^ 32
  /\ exists t,
       @run block_source (repeat 10%float 61, repeat 10%float 61) 0 = Some t
       /\ exit_status t = Some 0 /\ tests_of t = 57%nat.
Proof.
  assert (H1 : (61 <= 61)%nat) by lia.
  assert (H2 : Z.of_nat 61 < 2 ^ 32) by reflexivity.
  split; [exact H1|]. split; [exact H2|].
  exact (@run_same_constant_exhausts block_source 10%float 61 0 H1 H2).
Defined.

Lemma run_rejected_state_witness :
  let samples := (repeat 50%float 60, repeat 500%float 60) in
  exists d,
    @run block_source samples 0 = Some (Rejected d)
    /\ exists (i : nat) (g1 : @rng block_source),
         (i <= 56)%nat
         /\ x d = firstn (4 + i) (fst samples)
         /\ y d = firstn (4 + i) (snd samples)
         /\ tested d = S i
         /\ @rejected block_source (x d) (y d) g1 = Returns (true, gen d).
Proof.
  intros samples.
  destruct (@run_repeat_rejects block_source 50%float 500%float 60 0)
    as (g' & Hrun); [lia | reflexivity | reflexivity |].
  exists (@rejected_at block_source samples 0 g'). split; [exact Hrun|].
  destruct (@run_rejected_state block_source samples 0 _ Hrun)
    as (_ & i & g1 & Hi & Hx & Hy & _ & _ & Ht & _ & _ & Hr).
  exists i, g1. split; [exact Hi|]. split; [exact Hx|]. split; [exact Hy|].
  split; [exact Ht | exact Hr].
Defined.

Lemma driver_invariant_witness :
  let samples := (repeat 0%float 61, repeat 0%float 61) in
  let d0 := @driver_at block_source samples 0 0 in
  @startup block_source samples 0 = Returns d0
  /\ exists d,
       @reaches block_source d0 d
       /\ current d = 5
       /\ x d ++ first d = fst samples
       /\ size (x d) = current d /\ size (y d) = current d
       /\ Z.of_nat (tested d) = current d - INITAL_SAMPLE_SIZE.
Proof.
  intros samples d0.
  assert (H1 : @startup block_source samples 0 = Returns d0) by reflexivity.
  split; [exact H1|].
  destruct (@round_at block_source samples 0 0) as (b & g' & Hrej & Hr);
    [vm_compute; discriminate|].
  destruct (@rejected_zeros block_source 4 0) as (g'' & Hz); [lia|].
  change (firstn (4 + 0) (fst samples)) with (repeat 0%float 4) in Hrej.
  change (firstn (4 + 0) (snd samples)) with (repeat 0%float 4) in Hrej.
  rewrite Hz in Hrej. injection Hrej as <- <-.
  assert (Hc : (Z.of_nat (4 + 0) <? size (fst samples))
               && (Z.of_nat (4 + 0) <? size (snd samples)) = true)
    by reflexivity.
  rewrite Hc in Hr.
  pose (d1 := @driver_at block_source samples 1 g'').
  assert (H2 : @reaches block_source d0 d1)
    by (exact (reaches_next d0 d1 d1 Hr (reaches_here d1))).
  exists d1. split; [exact H2|]. split; [reflexivity|].
  destruct (@driver_invariant block_source samples 0 d0 d1 H1 H2)
    as (Hx & _ & Hsx & Hsy & _ & Ht).
  split; [exact Hx|]. split; [exact Hsx|]. split; [exact Hsy | exact Ht].
Defined.

(* ------------------------------------------------------------------ *)
(** ** Input without a count *)

Section NoCount.

Context {R : RandomSource}.

(** X19: when the input has no line other than comments (or no line at
    all), the count is read as 0, both backlogs are empty and the program
    fails the size assertion of [main] before any test. *)
Theorem main_without_count (input : stdin) (g : rng) :
  forallb is_comment (lines input) = true ->
  parseInput input = Returns ([], [])
  /\ main input g = Some (Crash AssertionFailure 0).
Proof.
  intros Hc.
  assert (Hl : skip_comments (lines input) = Returns EmptyString).
  { apply skip_comments_returns. right. now split. }
  assert (Hp : parseInput input = Returns ([], [])).
  { unfold parseInput. rewrite Hl. reflexivity. }
  split; [exact Hp|].
  unfold main, run. rewrite Hp.
  now rewrite startup_fails by reflexivity.
Qed.

End NoCount.

Lemma main_without_count_witness :
  let input := {| lines := ["# no data"%string; "#"%string];
                  numbers := fun _ => 1%float |} in
  forallb is_comment (lines input) = true
  /\ @main block_source input 0 = Some (Crash AssertionFailure 0).
Proof.
  intros input.
  assert (H : forallb is_comment (lines input) = true) by reflexivity.
  split; [exact H|].
  exact (proj2 (@main_without_count block_source input 0 H)).
Defined.
